(** * The annotation region engine of pdf2article

    A shallow embedding of [AnnotatorService]
    (src/frontend/src/app/modules/annotator-module/annotator.service.ts)
    and of the part of the canvas component that feeds it.

    Modelling conventions.
    - A JavaScript [number] is a mathematical integer ([Z]): the values
      the service handles are pixel offsets, page indices and a counter,
      all integers on which the arithmetic of the source ([+], [++],
      comparisons) is exact as long as they stay below 2^53 in
      magnitude.
    - A field holding [null] or [undefined] ([tag?], [annotationType],
      [pdf]) is an [option] where the service never tells [null] from
      [undefined]. It does for [pairKey], which [removeArticle] compares
      with [!==]: a [pairKey] is absent, [null] or a number.
    - Annotation objects live in a heap and are handled through
      references, as in the source: [Object.assign({}, a)] allocates a
      new object, while [filter] and [find] hand out the references
      they are given.
    - Page-properties objects live in a heap of their own: the
      registry holds the caller's objects, as the source does.
    - [http], the document loader and the drawing context are outside
      the model; [saveMetadata] yields the request it would post. *)

From stdpp Require Import base numbers option list sorting gmap strings.

Local Open Scope Z_scope.

(** ** Data model *)

Inductive AnnotationType := Article | Author | Title | Content.

(** The string value of each member of the [AnnotationType] enum. *)
Definition AnnotationType_value (t : AnnotationType) : string :=
  match t with
  | Article => "article"
  | Author => "author"
  | Title => "title"
  | Content => "content"
  end.

(** A property that may be absent ([undefined]), hold [null], or hold
    a value. Strict equality tells the three apart: [undefined] and
    [null] are each equal to themselves only. *)
Inductive Optional (A : Type) :=
| undefined
| null
| defined (a : A).
Arguments undefined {A}.
Arguments null {A}.
Arguments defined {A} a.

#[global] Instance Optional_eq_dec {A} `{EqDecision A} : EqDecision (Optional A).
Proof. solve_decision. Defined.

(** Neither [undefined] nor [null] is a value. *)
Definition unset {A} (o : Optional A) : Prop := o = undefined ∨ o = null.

Module Annotation.
Record t := mk {
  x : Z;
  y : Z;
  xEnd : Z;
  yEnd : Z;
  page : Z;
  pairKey : Optional Z;
  tag : option string
}.
End Annotation.
Abbreviation Annotation := Annotation.t.

#[global] Instance Annotation_eq_dec : EqDecision Annotation.
Proof. solve_decision. Defined.

#[global] Instance Annotation_inhabited : Inhabited Annotation :=
  populate (Annotation.mk 0 0 0 0 0 undefined None).

Record IPageDimensions := { width : Z; height : Z }.

Record IPageProperties := {
  pageIndex : Z;
  pageDimensions : IPageDimensions
}.

#[global] Instance IPageProperties_inhabited : Inhabited IPageProperties :=
  populate {| pageIndex := 0; pageDimensions := {| width := 0; height := 0 |} |}.

Inductive WorkMode := Create | Delete.

#[global] Instance WorkMode_eq_dec : EqDecision WorkMode.
Proof. solve_decision. Defined.

(** ** The spatial predicate *)

(** [hasAnnotation], lines 190-196. *)
Definition hasAnnotation (x y page : Z) (annotation : Annotation) : bool :=
  (x >=? Annotation.x annotation) &&
  (x <=? Annotation.xEnd annotation + Annotation.x annotation) &&
  (y >=? Annotation.y annotation) &&
  (y <=? Annotation.yEnd annotation + Annotation.y annotation) &&
  (page =? Annotation.page annotation).

(** The hit test as the specification words it: the bounds on each axis
    are the smaller and the larger of [origin] and [origin + extent]. *)
Definition hitTest_spec (x y page : Z) (region : Annotation) : Prop :=
  Annotation.page region = page ∧
  Z.min (Annotation.x region) (Annotation.x region + Annotation.xEnd region) ≤ x ∧
  x ≤ Z.max (Annotation.x region) (Annotation.x region + Annotation.xEnd region) ∧
  Z.min (Annotation.y region) (Annotation.y region + Annotation.yEnd region) ≤ y ∧
  y ≤ Z.max (Annotation.y region) (Annotation.y region + Annotation.yEnd region).

(** ** The heap of annotation objects *)

Definition loc := positive.

Abbreviation heap := (gmap loc Annotation).

(** A new object with the given fields; the reference returned is one
    that designates no object yet. *)
Definition alloc (h : heap) (a : Annotation) : loc * heap :=
  let l := fresh (dom h) in (l, <[l := a]> h).

(** [Object.assign({}, annotation)]: a new object with the fields of
    the one [annotation] refers to. A JavaScript reference always
    designates a live object, hence the total lookup. *)
Definition Object_assign_new (h : heap) (annotation : loc) : loc * heap :=
  alloc h (h !!! annotation).

(** [array.map(a => Object.assign({}, a))], left to right. *)
Fixpoint map_Object_assign_new (h : heap) (ls : list loc) : list loc * heap :=
  match ls with
  | [] => ([], h)
  | l :: ls =>
      let '(l', h1) := Object_assign_new h l in
      let '(ls', h2) := map_Object_assign_new h1 ls in
      (l' :: ls', h2)
  end.

(** ** The heap of page-properties objects

    [setPagesProperties] keeps the object it is handed, so the
    registry is a list of references too. An object holds its
    dimensions by value: assigning to the dimensions counts as
    assigning to the object. *)

Abbreviation pheap := (gmap loc IPageProperties).

(** The fields of the page-properties object a reference designates. *)
Definition pderef (h : pheap) (l : loc) : IPageProperties := h !!! l.

(** A caller makes a page-properties object. *)
Definition alloc_page (h : pheap) (p : IPageProperties) : loc * pheap :=
  let l := fresh (dom h) in (l, <[l := p]> h).

(** A caller assigns to fields of a page-properties object it holds:
    afterwards the object has the fields [p]. *)
Definition mutate_page (l : loc) (p : IPageProperties) (h : pheap) : pheap :=
  match h !! l with
  | Some _ => <[l := p]> h
  | None => h
  end.

(** ** rxjs [BehaviorSubject]

    The subject holds its current value; [next] replaces it and hands
    the new value to every observer; a new observer is handed the
    current value on subscription. Each observer is represented by the
    values it has received, oldest first. *)

Record BehaviorSubject (A : Type) := {
  bs_value : A;
  bs_observers : list (list A)
}.
Arguments bs_value {A} _.
Arguments bs_observers {A} _.

Definition bs_new {A} (v : A) : BehaviorSubject A :=
  {| bs_value := v; bs_observers := [] |}.

Definition bs_next {A} (v : A) (b : BehaviorSubject A) : BehaviorSubject A :=
  {| bs_value := v; bs_observers := (λ received, received ++ [v]) <$> bs_observers b |}.

Definition bs_subscribe {A} (b : BehaviorSubject A) : BehaviorSubject A :=
  {| bs_value := bs_value b; bs_observers := bs_observers b ++ [[bs_value b]] |}.

(** ** The service *)

Definition PdfHandle := positive.
Definition PageHandle := positive.

Record AnnotatorService := {
  pdf : option PdfHandle;
  pages : list PageHandle;
  annotations : list loc;
  annotationType : option AnnotationType;
  articleID : Z;
  pagesProperties : list loc;
  workMode : BehaviorSubject WorkMode
}.

(** The field initialisers of the class, lines 46-57. *)
Definition initial : AnnotatorService := {|
  pdf := None;
  pages := [];
  annotations := [];
  annotationType := None;
  articleID := 0;
  pagesProperties := [];
  workMode := bs_new Create
|}.

Definition set_annotations (v : list loc) (this : AnnotatorService) :=
  {| pdf := pdf this; pages := pages this; annotations := v;
     annotationType := annotationType this; articleID := articleID this;
     pagesProperties := pagesProperties this; workMode := workMode this |}.

Definition set_annotationType (v : option AnnotationType) (this : AnnotatorService) :=
  {| pdf := pdf this; pages := pages this; annotations := annotations this;
     annotationType := v; articleID := articleID this;
     pagesProperties := pagesProperties this; workMode := workMode this |}.

Definition set_articleID (v : Z) (this : AnnotatorService) :=
  {| pdf := pdf this; pages := pages this; annotations := annotations this;
     annotationType := annotationType this; articleID := v;
     pagesProperties := pagesProperties this; workMode := workMode this |}.

Definition set_pagesProperties (v : list loc) (this : AnnotatorService) :=
  {| pdf := pdf this; pages := pages this; annotations := annotations this;
     annotationType := annotationType this; articleID := articleID this;
     pagesProperties := v; workMode := workMode this |}.

Definition set_workMode (v : BehaviorSubject WorkMode) (this : AnnotatorService) :=
  {| pdf := pdf this; pages := pages this; annotations := annotations this;
     annotationType := annotationType this; articleID := articleID this;
     pagesProperties := pagesProperties this; workMode := v |}.

Definition set_pdf (v : option PdfHandle) (this : AnnotatorService) :=
  {| pdf := v; pages := pages this; annotations := annotations this;
     annotationType := annotationType this; articleID := articleID this;
     pagesProperties := pagesProperties this; workMode := workMode this |}.

Definition set_pages (v : list PageHandle) (this : AnnotatorService) :=
  {| pdf := pdf this; pages := v; annotations := annotations this;
     annotationType := annotationType this; articleID := articleID this;
     pagesProperties := pagesProperties this; workMode := workMode this |}.

(** The service together with the heaps its references point into. *)
Record World := {
  objects : heap;
  pageObjects : pheap;
  service : AnnotatorService
}.

Definition with_service (f : AnnotatorService → AnnotatorService) (w : World) : World :=
  {| objects := objects w; pageObjects := pageObjects w; service := f (service w) |}.

(** The fields of the annotation a reference designates. *)
Definition deref (h : heap) (l : loc) : Annotation := h !!! l.

(** The regions of the store, by value, in insertion order. *)
Definition store_contents (w : World) : list Annotation :=
  deref (objects w) <$> annotations (service w).

(** The entries of the page registry, by value, in insertion order. *)
Definition registry_contents (w : World) : list IPageProperties :=
  pderef (pageObjects w) <$> pagesProperties (service w).

(** Lines 61-68. *)
Definition clear (this : AnnotatorService) : AnnotatorService := {|
  annotations := [];
  articleID := 0;
  annotationType := None;
  workMode := bs_next Create (workMode this);
  pagesProperties := [];
  pdf := None;
  pages := pages this
|}.

(** Lines 76-78. *)
Definition setAnnotation (annotation : loc) (w : World) : World :=
  let '(l, h) := Object_assign_new (objects w) annotation in
  {| objects := h;
     pageObjects := pageObjects w;
     service := set_annotations (annotations (service w) ++ [l]) (service w) |}.

(** Lines 70-74. *)
Definition setServerAnnotations (annotations : list loc) (w : World) : World :=
  foldl (λ w annotation, setAnnotation annotation w) w annotations.

(** Lines 80-84: the references returned, and the heap after the copies. *)
Definition getAnnotations (page : Z) (w : World) : list loc * World :=
  let selected :=
    filter (λ annotation, Annotation.page (deref (objects w) annotation) = page)
           (annotations (service w)) in
  let '(copies, h) := map_Object_assign_new (objects w) selected in
  (copies, {| objects := h; pageObjects := pageObjects w; service := service w |}).

(** Lines 86-88. *)
Definition getAnnotationType (this : AnnotatorService) : option AnnotationType :=
  annotationType this.

(** Lines 90-93. *)
Definition setAnnotationType (type : AnnotationType) (this : AnnotatorService) : AnnotatorService :=
  set_workMode (bs_next Create (workMode this)) (set_annotationType (Some type) this).

(** Lines 95-99: the object handed in is itself pushed, not a copy. *)
Definition setPagesProperties (pageProperties : loc) (h : pheap) (this : AnnotatorService)
  : AnnotatorService :=
  match list_find (λ page, pageIndex (pderef h page) = pageIndex (pderef h pageProperties))
                  (pagesProperties this) with
  | None => set_pagesProperties (pagesProperties this ++ [pageProperties]) this
  | Some _ => this
  end.

(** Lines 104-106. *)
Definition flushAnnotations (this : AnnotatorService) : AnnotatorService :=
  set_annotations [] this.

(** Lines 129-131: the store's own references, not copies. *)
Definition getAnnotationFromCoords (x y page : Z) (w : World) : list loc :=
  filter (λ annotation, hasAnnotation x y page (deref (objects w) annotation) = true)
         (annotations (service w)).

(** Lines 124-127. *)
Definition getArticle (x y page : Z) (w : World) : list loc :=
  filter (λ annotation,
            Annotation.tag (deref (objects w) annotation) = Some (AnnotationType_value Article))
         (getAnnotationFromCoords x y page w).

(** Lines 198-200. *)
Definition removeArticle (article : loc) (w : World) : World :=
  with_service
    (set_annotations
       (filter (λ annotation,
                  Annotation.pairKey (deref (objects w) annotation)
                  ≠ Annotation.pairKey (deref (objects w) article))
               (annotations (service w))))
    w.

(** Line 135: the first of the regions under the point, in store order,
    that is tagged ["article"], if there is one. *)
Definition remove_find_article (x y page : Z) (w : World) : option loc :=
  snd <$> list_find
    (λ annotation,
       Annotation.tag (deref (objects w) annotation) = Some (AnnotationType_value Article))
    (getAnnotationFromCoords x y page w).

(** Lines 133-142. *)
Definition remove (x y page : Z) (w : World) : World :=
  match remove_find_article x y page w with
  | Some article => removeArticle article w
  | None =>
      with_service
        (set_annotations
           (filter (λ annotation,
                      ¬ hasAnnotation x y page (deref (objects w) annotation) = true)
                   (annotations (service w))))
        w
  end.

(** Lines 144-147. *)
Definition getNextArticleID (this : AnnotatorService) : Z * AnnotatorService :=
  let this' := set_articleID (articleID this + 1) this in
  (articleID this', this').

(** Lines 149-151. *)
Definition setWorkMode (mode : WorkMode) (this : AnnotatorService) : AnnotatorService :=
  set_workMode (bs_next mode (workMode this)) this.

(** Lines 153-155, followed by the caller's [subscribe]. *)
Definition subscribeWorkMode (this : AnnotatorService) : AnnotatorService :=
  set_workMode (bs_subscribe (workMode this)) this.

(** What an observer of the work mode currently sees: the last value
    it was handed. *)
Definition observed (received : list WorkMode) : option WorkMode := last received.

(** Lines 116-122: the request handed to [http.post]. The payload array
    holds the store's own references, and [pagesProperties] is the
    registry's. *)
Module Request.
Record t := mk {
  url : string;
  payload : list loc;
  pagesProperties : list loc
}.
End Request.

Definition saveMetadata (id : string) (w : World) : Request.t :=
  let payload :=
    filter (λ annotation,
              Annotation.tag (deref (objects w) annotation) ≠ Some (AnnotationType_value Article))
           (annotations (service w)) in
  let pagesProperties := pagesProperties (service w) in
  Request.mk ("/api/training/metadata/" +:+ id) payload pagesProperties.

(** The body of the request as serialised: every referenced object is
    written out by value. *)
Module Envelope.
Record t := mk {
  payload : list Annotation;
  pagesProperties : list IPageProperties
}.
End Envelope.

Definition serialize (h : heap) (ph : pheap) (r : Request.t) : Envelope.t :=
  Envelope.mk (deref h <$> Request.payload r) (pderef ph <$> Request.pagesProperties r).


(** [n] consecutive calls of [getNextArticleID]: the values returned,
    in call order, and the service afterwards. *)
Fixpoint getNextArticleID_times (n : nat) (this : AnnotatorService)
  : list Z * AnnotatorService :=
  match n with
  | O => ([], this)
  | S n =>
      let '(k, this1) := getNextArticleID this in
      let '(ks, this2) := getNextArticleID_times n this1 in
      (k :: ks, this2)
  end.

(** Lines 157-163 and 174-184, once the document and its pages have
    been delivered: the handle is kept, the pages are appended. *)
Definition pdfLoaded (document : PdfHandle) (this : AnnotatorService) : AnnotatorService :=
  set_pdf (Some document) this.

Definition pageLoaded (p : PageHandle) (this : AnnotatorService) : AnnotatorService :=
  set_pages (pages this ++ [p]) this.

(** ** The callers' side of the heap *)

(** A caller assigns to fields of an object it holds: afterwards the
    object has the fields [a]. *)
Definition mutate (l : loc) (a : Annotation) (h : heap) : heap :=
  match h !! l with
  | Some _ => <[l := a]> h
  | None => h
  end.

(** ** The canvas component

    annotator-canvas.component.ts: the gesture handlers that build an
    annotation in [currentAnnotation] and hand it to the service. *)

Module Canvas.
Record t := mk {
  pageIndex : Z;
  draw : bool;
  currentAnnotation : loc
}.
End Canvas.

(** Lines 69-77, called from the constructor. *)
Definition resetAnnotation (pageIndex : Z) (h : heap) : Canvas.t * heap :=
  let '(l, h') := alloc h (Annotation.mk 0 0 0 0 0 undefined None) in
  (Canvas.mk pageIndex false l, h').

(** Lines 38-46. *)
Definition onMouseDown (offsetX offsetY : Z) (c : Canvas.t) (w : World) : Canvas.t * World :=
  let cur := deref (objects w) (Canvas.currentAnnotation c) in
  let cur' :=
    Annotation.mk offsetX offsetY (Annotation.xEnd cur) (Annotation.yEnd cur)
      (Annotation.page cur) (Annotation.pairKey cur)
      (AnnotationType_value <$> getAnnotationType (service w)) in
  (Canvas.mk (Canvas.pageIndex c) true (Canvas.currentAnnotation c),
   {| objects := mutate (Canvas.currentAnnotation c) cur' (objects w);
      pageObjects := pageObjects w;
      service := service w |}).

(** Lines 48-57, the drawing calls left out. *)
Definition onMouseMove (offsetX offsetY : Z) (c : Canvas.t) (w : World) : Canvas.t * World :=
  if Canvas.draw c then
    let cur := deref (objects w) (Canvas.currentAnnotation c) in
    let cur' :=
      Annotation.mk (Annotation.x cur) (Annotation.y cur)
        (offsetX - Annotation.x cur) (offsetY - Annotation.y cur)
        (Annotation.page cur) (Annotation.pairKey cur) (Annotation.tag cur) in
    (c, {| objects := mutate (Canvas.currentAnnotation c) cur' (objects w);
           pageObjects := pageObjects w;
           service := service w |})
  else (c, w).

(** Lines 59-67. *)
Definition onMouseUp (c : Canvas.t) (w : World) : Canvas.t * World :=
  let w' :=
    if Canvas.draw c then
      let cur := deref (objects w) (Canvas.currentAnnotation c) in
      let cur' :=
        Annotation.mk (Annotation.x cur) (Annotation.y cur)
          (Annotation.xEnd cur) (Annotation.yEnd cur)
          (Canvas.pageIndex c) (Annotation.pairKey cur) (Annotation.tag cur) in
      setAnnotation (Canvas.currentAnnotation c)
        {| objects := mutate (Canvas.currentAnnotation c) cur' (objects w);
           pageObjects := pageObjects w;
           service := service w |}
    else w in
  (Canvas.mk (Canvas.pageIndex c) false (Canvas.currentAnnotation c), w').

(** ** Operations as steps of the world

    The calls of the service that change it or the heap, the two
    deliveries of the document loader, and what a caller can do on its
    own: create an object, and assign to the fields of one. *)

Inductive Operation :=
| OpClear
| OpSetServerAnnotations (annotations : list loc)
| OpSetAnnotation (annotation : loc)
| OpGetAnnotations (page : Z)
| OpSetAnnotationType (type : AnnotationType)
| OpSetPagesProperties (pageProperties : loc)
| OpFlushAnnotations
| OpRemove (x y page : Z)
| OpGetNextArticleID
| OpSetWorkMode (mode : WorkMode)
| OpSubscribeWorkMode
| OpPdfLoaded (document : PdfHandle)
| OpPageLoaded (p : PageHandle)
| OpCallerAlloc (a : Annotation)
| OpCallerMutate (l : loc) (a : Annotation)
| OpCallerAllocPage (p : IPageProperties)
| OpCallerMutatePage (l : loc) (p : IPageProperties).

Definition run (op : Operation) (w : World) : World :=
  match op with
  | OpClear => with_service clear w
  | OpSetServerAnnotations annotations => setServerAnnotations annotations w
  | OpSetAnnotation annotation => setAnnotation annotation w
  | OpGetAnnotations page => snd (getAnnotations page w)
  | OpSetAnnotationType type => with_service (setAnnotationType type) w
  | OpSetPagesProperties pageProperties =>
      with_service (setPagesProperties pageProperties (pageObjects w)) w
  | OpFlushAnnotations => with_service flushAnnotations w
  | OpRemove x y page => remove x y page w
  | OpGetNextArticleID => with_service (λ this, snd (getNextArticleID this)) w
  | OpSetWorkMode mode => with_service (setWorkMode mode) w
  | OpSubscribeWorkMode => with_service subscribeWorkMode w
  | OpPdfLoaded document => with_service (pdfLoaded document) w
  | OpPageLoaded p => with_service (pageLoaded p) w
  | OpCallerAlloc a =>
      {| objects := snd (alloc (objects w) a); pageObjects := pageObjects w;
         service := service w |}
  | OpCallerMutate l a =>
      {| objects := mutate l a (objects w); pageObjects := pageObjects w;
         service := service w |}
  | OpCallerAllocPage p =>
      {| objects := objects w; pageObjects := snd (alloc_page (pageObjects w) p);
         service := service w |}
  | OpCallerMutatePage l p =>
      {| objects := objects w; pageObjects := mutate_page l p (pageObjects w);
         service := service w |}
  end.

Definition initial_world : World :=
  {| objects := ∅; pageObjects := ∅; service := initial |}.

(** The worlds a session can be in. *)
Inductive reachable : World → Prop :=
| reachable_initial : reachable initial_world
| reachable_run op w : reachable w → reachable (run op w).

(** ** Invariants *)

(** Every reference the store holds designates an object. *)
Definition heap_closed (w : World) : Prop :=
  Forall (λ l, l ∈ dom (objects w)) (annotations (service w)).

(** No two entries of the page registry have the same [pageIndex]. *)
Definition registry_ok (w : World) : Prop :=
  NoDup (pageIndex <$> registry_contents w).

(** No stored region has a negative extent. *)
Definition nonneg_extents (w : World) : Prop :=
  Forall (λ l, 0 ≤ Annotation.xEnd (deref (objects w) l) ∧
               0 ≤ Annotation.yEnd (deref (objects w) l))
         (annotations (service w)).

(** ** Sessions used as examples *)

Definition run_all (ops : list Operation) (w : World) : World :=
  foldl (λ w op, run op w) w ops.

(** A record loaded from the server: an article box on page 0 with its
    title inside it, an author on page 1 and a content block on page 2,
    all with [pairKey] 1, and a title of another record on page 0. *)
Definition server_article : Annotation :=
  Annotation.mk 50 50 200 100 0 (defined 1) (Some "article"%string).
Definition server_title : Annotation :=
  Annotation.mk 60 60 50 20 0 (defined 1) (Some "title"%string).
Definition server_author : Annotation :=
  Annotation.mk 10 10 5 5 1 (defined 1) (Some "author"%string).
Definition server_content : Annotation :=
  Annotation.mk 20 20 300 400 2 (defined 1) (Some "content"%string).
Definition server_other : Annotation :=
  Annotation.mk 300 300 10 10 0 (defined 2) (Some "title"%string).

Definition server_session : World :=
  run_all
    [OpCallerAlloc server_article; OpCallerAlloc server_title;
     OpCallerAlloc server_author; OpCallerAlloc server_content;
     OpCallerAlloc server_other;
     OpCallerAllocPage {| pageIndex := 0;
                          pageDimensions := {| width := 600; height := 800 |} |};
     OpSetPagesProperties 1%positive;
     OpSetServerAnnotations [1; 2; 3; 4; 5]%positive]
    initial_world.

(** Four regions loaded on page 0: a content block, an article of
    record 2 and an article of record 1, all three over the point
    (5,5), and an author of record 1 elsewhere. *)
Definition two_articles_session : World :=
  run_all
    [OpCallerAlloc (Annotation.mk 0 0 10 10 0 (defined 3) (Some "content"%string));
     OpCallerAlloc (Annotation.mk 0 0 10 10 0 (defined 2) (Some "article"%string));
     OpCallerAlloc (Annotation.mk 0 0 10 10 0 (defined 1) (Some "article"%string));
     OpCallerAlloc (Annotation.mk 20 20 5 5 0 (defined 1) (Some "author"%string));
     OpSetServerAnnotations [1; 2; 3; 4]%positive]
    initial_world.

(** One page-properties object registered for page 3, given other
    dimensions by its owner, and registered again. *)
Definition registry_rewritten_session : World :=
  run_all
    [OpCallerAllocPage {| pageIndex := 3;
                          pageDimensions := {| width := 600; height := 800 |} |};
     OpSetPagesProperties 1%positive;
     OpCallerMutatePage 1%positive
       {| pageIndex := 3; pageDimensions := {| width := 1; height := 2 |} |};
     OpSetPagesProperties 1%positive]
    initial_world.

(** Two objects registered for pages 0 and 1, the second then given
    [pageIndex] 0 by its owner. *)
Definition registry_renumbered_session : World :=
  run_all
    [OpCallerAllocPage {| pageIndex := 0;
                          pageDimensions := {| width := 600; height := 800 |} |};
     OpSetPagesProperties 1%positive;
     OpCallerAllocPage {| pageIndex := 1;
                          pageDimensions := {| width := 600; height := 800 |} |};
     OpSetPagesProperties 2%positive;
     OpCallerMutatePage 2%positive
       {| pageIndex := 0; pageDimensions := {| width := 600; height := 800 |} |}]
    initial_world.

(** Two objects registered for page 3, neither assigned to. *)
Definition registry_two_objects_session : World :=
  run_all
    [OpCallerAllocPage {| pageIndex := 3;
                          pageDimensions := {| width := 600; height := 800 |} |};
     OpSetPagesProperties 1%positive;
     OpCallerAllocPage {| pageIndex := 3;
                          pageDimensions := {| width := 1; height := 2 |} |};
     OpSetPagesProperties 2%positive]
    initial_world.

(** One drag on a canvas: button down at [(x0, y0)], pointer moved to
    [(x1, y1)], button up. *)
Definition drag (x0 y0 x1 y1 : Z) (c : Canvas.t) (w : World) : Canvas.t * World :=
  let '(c, w) := onMouseDown x0 y0 c w in
  let '(c, w) := onMouseMove x1 y1 c w in
  onMouseUp c w.

(** An article drawn on the canvas of page 0 from (50,50) to (250,150),
    then a title drawn on the canvas of page 5 from (10,10) to (60,30). *)
Definition canvas_session : World :=
  let '(c0, h) := resetAnnotation 0 ∅ in
  let '(c5, h) := resetAnnotation 5 h in
  let w := {| objects := h; pageObjects := ∅; service := initial |} in
  let w := with_service (setAnnotationType Article) w in
  let '(_, w) := drag 50 50 250 150 c0 w in
  let w := with_service (setAnnotationType Title) w in
  let '(_, w) := drag 10 10 60 30 c5 w in
  w.

(** The canvas of page 0 just constructed, with ["article"] selected. *)
Definition page0_canvas : Canvas.t := fst (resetAnnotation 0 ∅).
Definition page0_world : World :=
  {| objects := snd (resetAnnotation 0 ∅);
     pageObjects := ∅;
     service := setAnnotationType Article initial |}.

(** [canvas_session], then a title loaded for page 5 whose [pairKey]
    is [null]. *)
Definition null_pairKey_title : Annotation :=
  Annotation.mk 10 40 50 20 5 null (Some "title"%string).

Definition mixed_session : World :=
  run_all [OpCallerAlloc null_pairKey_title; OpSetAnnotation 5%positive] canvas_session.

(** An article drawn on the canvas of page 0 upwards and to the left,
    from (10,10) to (5,5). *)
Definition drag_up_left_session : World :=
  let '(c0, h) := resetAnnotation 0 ∅ in
  let w := {| objects := h; pageObjects := ∅;
              service := setAnnotationType Article initial |} in
  snd (drag 10 10 5 5 c0 w).

(** ** More of the callers' side *)

(** Button down and up at one place, the pointer not moved between. *)
Definition click (x y : Z) (c : Canvas.t) (w : World) : Canvas.t * World :=
  let '(c, w) := onMouseDown x y c w in
  onMouseUp c w.

(** A whole gesture: button down at [(x0, y0)], the pointer moved
    through [moves] in turn, button up. *)
Definition gesture (x0 y0 : Z) (moves : list (Z * Z)) (c : Canvas.t) (w : World)
  : Canvas.t * World :=
  let '(c, w) := onMouseDown x0 y0 c w in
  let '(c, w) :=
    foldl (λ cw m, onMouseMove (fst m) (snd m) (fst cw) (snd cw)) (c, w) moves in
  onMouseUp c w.

(** The pointer events a canvas listens to. *)
Inductive CanvasEvent :=
| MouseDown (offsetX offsetY : Z)
| MouseMove (offsetX offsetY : Z)
| MouseUp.

Definition handle (e : CanvasEvent) (c : Canvas.t) (w : World) : Canvas.t * World :=
  match e with
  | MouseDown offsetX offsetY => onMouseDown offsetX offsetY c w
  | MouseMove offsetX offsetY => onMouseMove offsetX offsetY c w
  | MouseUp => onMouseUp c w
  end.

(** A canvas whose [currentAnnotation] is an object of its own: one
    that exists and is not an object of the store. *)
Definition canvas_ready (c : Canvas.t) (w : World) : Prop :=
  heap_closed w ∧
  Canvas.currentAnnotation c ∈ dom (objects w) ∧
  Canvas.currentAnnotation c ∉ annotations (service w).

(** The operations that are calls of the service, as opposed to a
    caller making or changing an object of its own. *)
Definition service_call (op : Operation) : bool :=
  match op with
  | OpCallerAlloc _ | OpCallerMutate _ _
  | OpCallerAllocPage _ | OpCallerMutatePage _ _ => false
  | _ => true
  end.

(** No object has a [pairKey] property: it is absent, not [null]. *)
Definition no_pairKey (w : World) : Prop :=
  map_Forall (λ _ a, Annotation.pairKey a = undefined) (objects w).

(** Every observer of the work mode has the current mode as the last
    value it received. *)
Definition observers_in_sync (this : AnnotatorService) : Prop :=
  Forall (λ received, observed received = Some (bs_value (workMode this)))
         (bs_observers (workMode this)).

(** The keys handed out by the calls of [getNextArticleID] among
    [ops], run from [w], in call order. *)
Fixpoint issued (ops : list Operation) (w : World) : list Z :=
  match ops with
  | [] => []
  | op :: ops =>
      match op with
      | OpGetNextArticleID => fst (getNextArticleID (service w)) :: issued ops (run op w)
      | _ => issued ops (run op w)
      end
  end.

(** The page registry after [setPagesProperties] of each of [pps] in
    turn, no object being assigned to in between. *)
Definition setPagesProperties_each (pps : list loc) (h : pheap) (this : AnnotatorService)
  : AnnotatorService :=
  foldl (λ this pageProperties, setPagesProperties pageProperties h this) this pps.


(** What was saved is loaded again: the regions are flushed and the
    payload of [saveMetadata] is handed to [setServerAnnotations]. *)
Definition save_flush_load (id : string) (w : World) : World :=
  setServerAnnotations (Request.payload (saveMetadata id w))
    (with_service flushAnnotations w).

(** ** The drawing context

    The part of a 2D canvas context that [drawAnnotation] uses: the
    current stroke colour, the current path, and what has been stroked
    so far, each rectangle with the colour it was stroked in. [stroke]
    paints the current path in the current colour; assigning
    [strokeStyle] changes the colour of later strokes only. *)

Module Rect.
Record t := mk { x : Z; y : Z; w : Z; h : Z }.
End Rect.












(** * Properties *)

(** ** Hit testing *)

Lemma hasAnnotation_true x y page a :
  hasAnnotation x y page a = true ↔
  Annotation.x a ≤ x ≤ Annotation.x a + Annotation.xEnd a ∧
  Annotation.y a ≤ y ≤ Annotation.y a + Annotation.yEnd a ∧
  page = Annotation.page a.
Proof.
  unfold hasAnnotation.
  rewrite !andb_true_iff, !Z.geb_le, !Z.leb_le, Z.eqb_eq. lia.
Qed.

Lemma hasAnnotation_nonneg_extent x y page a :
  0 ≤ Annotation.xEnd a → 0 ≤ Annotation.yEnd a →
  hasAnnotation x y page a = true ↔ hitTest_spec x y page a.
Proof.
  intros Hx Hy. rewrite hasAnnotation_true. unfold hitTest_spec. lia.
Qed.

Lemma hasAnnotation_negative_extent_never x y page a :
  Annotation.xEnd a < 0 ∨ Annotation.yEnd a < 0 →
  hasAnnotation x y page a = false.
Proof.
  intros Hneg. apply not_true_is_false. rewrite hasAnnotation_true. lia.
Qed.

(** C1. The hit test takes [origin] as the lower and [origin + extent]
    as the upper bound whatever the sign of the extent. At the point
    (7,7) of page 0 the specification's test accepts the region with
    origin (10,10) and extent (-5,-5), and the code accepts the region
    with origin (5,5) and extent (5,5), but the code rejects the
    former: the two regions do not match the same points. A drag from
    (10,10) to (5,5) on the canvas stores exactly such a region, and
    [remove] at (7,7) leaves it in the store. *)
Theorem hasAnnotation_negative_extent_diverges :
  let dragged := Annotation.mk 10 10 (-5) (-5) 0 undefined None in
  let normalized := Annotation.mk 5 5 5 5 0 undefined None in
  hitTest_spec 7 7 0 dragged ∧
  hasAnnotation 7 7 0 dragged = false ∧
  hasAnnotation 7 7 0 normalized = true ∧
  store_contents drag_up_left_session
  = [Annotation.mk 10 10 (-5) (-5) 0 undefined (Some "article"%string)] ∧
  getAnnotationFromCoords 7 7 0 drag_up_left_session = [] ∧
  store_contents (remove 7 7 0 drag_up_left_session)
  = store_contents drag_up_left_session.
Proof.
  split_and!; [|by vm_compute..].
  unfold hitTest_spec; simpl. lia.
Qed.

(** ** Generic list facts *)

Section list_facts.
  Context {A B : Type} (f : A → B).
  Context (P : B → Prop) `{!∀ b, Decision (P b)}.
  Context (Q : A → Prop) `{!∀ a, Decision (Q a)}.
  Hypothesis Q_P : ∀ a, Q a ↔ P (f a).

(** Filtering references by a property of what they designate, then
    reading them, is reading them all and filtering the values. *)
Lemma fmap_filter_comm (l : list A) :
  f <$> filter Q l = filter P (f <$> l).
Proof.
  induction l as [|a l IH]; [done|].
  rewrite fmap_cons, !filter_cons.
  destruct (decide (Q a)) as [Hq|Hq], (decide (P (f a))) as [Hp|Hp];
    rewrite ?fmap_cons, IH; try done; exfalso; apply Q_P in Hq || apply Hq, Q_P; done.
Qed.

End list_facts.

(** ** Flush and clear *)

(** C4. [flushAnnotations] leaves a store in which every page lists no
    region, and changes nothing else: page registry (its references and
    what they designate), counter, annotation type, work mode (value and
    observers), document handle, rendered pages and the heaps are what
    they were. *)
Theorem flushAnnotations_frame (w : World) :
  let w' := with_service flushAnnotations w in
  (∀ page, fst (getAnnotations page w') = []) ∧
  annotations (service w') = [] ∧
  pagesProperties (service w') = pagesProperties (service w) ∧
  articleID (service w') = articleID (service w) ∧
  annotationType (service w') = annotationType (service w) ∧
  workMode (service w') = workMode (service w) ∧
  pdf (service w') = pdf (service w) ∧
  pages (service w') = pages (service w) ∧
  objects w' = objects w ∧
  pageObjects w' = pageObjects w ∧
  registry_contents w' = registry_contents w.
Proof.
  repeat split.
Qed.

(** C5. After [clear] the region list is empty, the counter is 0, the
    annotation type is unset, the work mode is [Create], the page
    registry is empty and the document handle is dropped; on each of
    these the service agrees with a newly constructed one. *)
Theorem clear_resets (this : AnnotatorService) :
  annotations (clear this) = [] ∧
  articleID (clear this) = 0 ∧
  annotationType (clear this) = None ∧
  bs_value (workMode (clear this)) = Create ∧
  pagesProperties (clear this) = [] ∧
  pdf (clear this) = None ∧
  (annotations (clear this), articleID (clear this), annotationType (clear this),
   bs_value (workMode (clear this)), pagesProperties (clear this), pdf (clear this))
  = (annotations initial, articleID initial, annotationType initial,
     bs_value (workMode initial), pagesProperties initial, pdf initial).
Proof.
  repeat split.
Qed.

(** ** The pairing-key counter *)

Lemma getNextArticleID_times_values n : ∀ this,
  fst (getNextArticleID_times n this)
  = (λ k : nat, articleID this + Z.of_nat k) <$> seq 1 n.
Proof.
  induction n as [|n IH]; intros this; [done|].
  simpl. specialize (IH (set_articleID (articleID this + 1) this)).
  destruct (getNextArticleID_times n _) as [ks this2]. simpl in *.
  rewrite IH. f_equal.
  change (list_fmap nat Z ?g ?l) with (g <$> l).
  rewrite <- (fmap_S_seq 1), <- list_fmap_compose.
  apply list_fmap_ext. intros _ k _. simpl. lia.
Qed.

Lemma offsets_sorted c m n :
  StronglySorted Z.lt ((λ k : nat, c + Z.of_nat k) <$> seq m n).
Proof.
  revert m. induction n as [|n IH]; intros m; simpl; constructor; [apply IH|].
  apply Forall_fmap, Forall_forall. intros k Hk%elem_of_seq. simpl. lia.
Qed.

Lemma StronglySorted_lt_NoDup (l : list Z) : StronglySorted Z.lt l → NoDup l.
Proof.
  induction 1 as [|a l _ IH Hall]; constructor; [|done].
  intros Hin. rewrite Forall_forall in Hall. specialize (Hall a Hin). lia.
Qed.

(** C7. [N] calls of [getNextArticleID] in a row return [N] values,
    each greater than all the earlier ones, hence pairwise distinct;
    after [clear] the counter is back at its initial value and the next
    call returns what the first call on a new service returns. *)
Theorem getNextArticleID_fresh_increasing (N : nat) (this : AnnotatorService) :
  let ks := fst (getNextArticleID_times N this) in
  length ks = N ∧
  StronglySorted Z.lt ks ∧
  NoDup ks ∧
  articleID (clear (snd (getNextArticleID_times N this))) = articleID initial ∧
  fst (getNextArticleID (clear (snd (getNextArticleID_times N this))))
  = fst (getNextArticleID initial).
Proof.
  simpl. rewrite getNextArticleID_times_values.
  split_and!.
  - by rewrite length_fmap, length_seq.
  - apply offsets_sorted.
  - apply StronglySorted_lt_NoDup, offsets_sorted.
  - reflexivity.
  - reflexivity.
Qed.

(** ** The work mode *)

(** C8. A new service is in [Create]; after [setWorkMode m] the current
    value is [m], every observer already subscribed has [m] as the
    last value received, and an observer that subscribes afterwards
    receives exactly [m]; after [setAnnotationType] the current value
    is [Create], whatever it was. *)
Theorem workMode_transitions :
  bs_value (workMode initial) = Create ∧
  (∀ m this, bs_value (workMode (setWorkMode m this)) = m) ∧
  (∀ m this received,
     received ∈ bs_observers (workMode (setWorkMode m this)) →
     observed received = Some m) ∧
  (∀ m this,
     last (bs_observers (workMode (subscribeWorkMode (setWorkMode m this)))) = Some [m]) ∧
  (∀ this,
     last (bs_observers (workMode (subscribeWorkMode this)))
     = Some [bs_value (workMode this)]) ∧
  (∀ type this, bs_value (workMode (setAnnotationType type this)) = Create).
Proof.
  split_and!; try done.
  - intros m this received. simpl.
    intros (r & -> & _)%list_elem_of_fmap. unfold observed. apply last_snoc.
  - intros m this. simpl. apply last_snoc.
  - intros this. simpl. apply last_snoc.
Qed.

(** ** The save envelope *)

(** C10. The body posted by [saveMetadata], written out by value, has
    as payload the stored regions whose tag is not ["article"], in
    store order, and as [pagesProperties] the whole page registry; a
    region with an unset tag is in the payload. *)
Theorem saveMetadata_envelope (id : string) (w : World) :
  let e := serialize (objects w) (pageObjects w) (saveMetadata id w) in
  Envelope.payload e
  = filter (λ a, Annotation.tag a ≠ Some (AnnotationType_value Article)) (store_contents w) ∧
  Envelope.pagesProperties e = registry_contents w ∧
  (∀ a, a ∈ Envelope.payload e ↔
        a ∈ store_contents w ∧ Annotation.tag a ≠ Some "article"%string) ∧
  (∀ a, a ∈ store_contents w → Annotation.tag a = None → a ∈ Envelope.payload e).
Proof.
  assert (Heq : deref (objects w) <$>
      filter (λ annotation, Annotation.tag (deref (objects w) annotation)
                            ≠ Some (AnnotationType_value Article))
             (annotations (service w))
    = filter (λ a, Annotation.tag a ≠ Some (AnnotationType_value Article))
             (store_contents w)).
  { unfold store_contents. by apply fmap_filter_comm. }
  unfold serialize, saveMetadata.
  cbn [Envelope.payload Envelope.pagesProperties Request.payload Request.pagesProperties].
  rewrite Heq. split_and!; [done|done| |].
  - intros a. rewrite list_elem_of_filter. simpl. tauto.
  - intros a Hin Htag. apply list_elem_of_filter. split; [|done].
    rewrite Htag. discriminate.
Qed.

(** ** The page registry *)

Lemma setPagesProperties_absent pageProperties h this :
  (∀ p, p ∈ pagesProperties this →
        pageIndex (pderef h p) ≠ pageIndex (pderef h pageProperties)) →
  setPagesProperties pageProperties h this
  = set_pagesProperties (pagesProperties this ++ [pageProperties]) this.
Proof.
  intros Habs. unfold setPagesProperties.
  destruct (list_find _ _) as [[i p]|] eqn:Hfind; [|done].
  apply list_find_Some in Hfind as (Hp%list_elem_of_lookup_2 & Heq & _).
  by destruct (Habs p Hp).
Qed.

Lemma setPagesProperties_present pageProperties h this p :
  p ∈ pagesProperties this →
  pageIndex (pderef h p) = pageIndex (pderef h pageProperties) →
  setPagesProperties pageProperties h this = this.
Proof.
  intros Hp Heq. unfold setPagesProperties.
  destruct (list_find _ _) as [[i q]|] eqn:Hfind; [done|].
  apply list_find_None in Hfind. rewrite Forall_forall in Hfind.
  by destruct (Hfind p Hp).
Qed.

Lemma setPagesProperties_registry_ok pageProperties w :
  registry_ok w →
  registry_ok (with_service (setPagesProperties pageProperties (pageObjects w)) w).
Proof.
  unfold registry_ok, registry_contents, with_service, setPagesProperties.
  cbn [pageObjects service]. intros Hok.
  destruct (list_find _ _) as [[i q]|] eqn:Hfind; [done|].
  apply list_find_None in Hfind. rewrite Forall_forall in Hfind.
  cbn [pagesProperties set_pagesProperties]. rewrite !fmap_app.
  apply NoDup_app. split_and!; [done| |apply NoDup_singleton].
  intros k (p & -> & (l & -> & Hl)%list_elem_of_fmap)%list_elem_of_fmap
         Hk%list_elem_of_singleton.
  by apply (Hfind l Hl).
Qed.

Lemma setAnnotation_service annotation w :
  ∃ l, service (setAnnotation annotation w)
       = set_annotations (annotations (service w) ++ [l]) (service w).
Proof. unfold setAnnotation. simpl. eauto. Qed.

Lemma setServerAnnotations_pagesProperties annotations w :
  pagesProperties (service (setServerAnnotations annotations w))
  = pagesProperties (service w).
Proof.
  unfold setServerAnnotations. revert w.
  induction annotations as [|a l IH]; intros w; [done|].
  simpl. rewrite IH. by destruct (setAnnotation_service a w) as [? ->].
Qed.

Lemma getAnnotations_service page w :
  service (snd (getAnnotations page w)) = service w.
Proof.
  unfold getAnnotations. by destruct (map_Object_assign_new _ _).
Qed.

Lemma remove_frame x y page w :
  objects (remove x y page w) = objects w ∧
  ∃ l, service (remove x y page w) = set_annotations l (service w).
Proof.
  unfold remove. destruct (remove_find_article x y page w); simpl; eauto.
Qed.

Lemma remove_keeps_objects x y page w :
  objects (remove x y page w) = objects w ∧
  ∀ l, l ∈ annotations (service (remove x y page w)) → l ∈ annotations (service w).
Proof.
  split; [apply remove_frame|].
  unfold remove, removeArticle.
  destruct (remove_find_article x y page w); cbn [with_service service annotations set_annotations];
    by intros k [_ Hk]%list_elem_of_filter.
Qed.

Lemma setAnnotation_pageObjects annotation w :
  pageObjects (setAnnotation annotation w) = pageObjects w.
Proof. unfold setAnnotation. by destruct (Object_assign_new _ _). Qed.

Lemma setServerAnnotations_pageObjects annotations w :
  pageObjects (setServerAnnotations annotations w) = pageObjects w.
Proof.
  unfold setServerAnnotations. revert w.
  induction annotations as [|a l IH]; intros w; [done|].
  simpl. by rewrite IH, setAnnotation_pageObjects.
Qed.

Lemma getAnnotations_pageObjects page w :
  pageObjects (snd (getAnnotations page w)) = pageObjects w.
Proof. unfold getAnnotations. by destruct (map_Object_assign_new _ _). Qed.

Lemma remove_pageObjects x y page w :
  pageObjects (remove x y page w) = pageObjects w.
Proof. unfold remove. by destruct (remove_find_article x y page w). Qed.

(** What leaves the registry and the page-properties objects alone
    leaves the registry's contents alone. *)
Lemma registry_contents_frame w w' :
  pageObjects w' = pageObjects w →
  pagesProperties (service w') = pagesProperties (service w) →
  registry_contents w' = registry_contents w.
Proof. unfold registry_contents. by intros -> ->. Qed.

(** Every call of the service keeps the registry free of duplicates. *)
Lemma run_registry_ok op w :
  service_call op = true → registry_ok w → registry_ok (run op w).
Proof.
  intros Hcall Hok. unfold registry_ok in *.
  destruct op as [|anns|ann|pg|ty|pp| |x y page| |m| |doc|p|a|l a|q|l q];
    cbn [run]; try done.
  - apply NoDup_nil_2.
  - rewrite (registry_contents_frame w); [done|..].
    + apply setServerAnnotations_pageObjects.
    + apply setServerAnnotations_pagesProperties.
  - rewrite (registry_contents_frame w); [done|..].
    + apply getAnnotations_pageObjects.
    + by rewrite getAnnotations_service.
  - by apply setPagesProperties_registry_ok.
  - rewrite (registry_contents_frame w); [done|..].
    + apply remove_pageObjects.
    + by destruct (remove_frame x y page w) as [_ [l ->]].
Qed.

(** C6. [setPagesProperties] pushes the object it is handed, where
    [setAnnotation] pushes a copy, so what the registry shows follows
    the caller's later assignments. When one object is registered for
    page 3 with dimensions 600 x 800, then given the dimensions 1 x 2
    and registered again, the registry's one entry shows 1 x 2, not the
    dimensions registered first. When two objects are registered for
    pages 0 and 1 and the second is then given [pageIndex] 0, the
    registry holds two entries for page 0. With two objects that are
    not assigned to, the first registration is kept. *)
Theorem page_registry_shares_caller_objects :
  registry_contents registry_rewritten_session
  = [{| pageIndex := 3; pageDimensions := {| width := 1; height := 2 |} |}] ∧
  pageIndex <$> registry_contents registry_renumbered_session = [0; 0] ∧
  registry_contents registry_two_objects_session
  = [{| pageIndex := 3; pageDimensions := {| width := 600; height := 800 |} |}].
Proof. by vm_compute. Qed.

(** ** Removal *)

Section find_in_filter.
  Context {A : Type} (P Q : A → Prop).
  Context `{!∀ a, Decision (P a)} `{!∀ a, Decision (Q a)}.

(** [find] after [filter] picks the first element, in the order of the
    unfiltered list, that passes both tests. *)
Lemma find_filter_first (l : list A) (x : A) :
  snd <$> list_find P (filter Q l) = Some x →
  ∃ pre post, l = pre ++ x :: post ∧ Q x ∧ P x ∧ Forall (λ a, ¬ (Q a ∧ P a)) pre.
Proof.
  induction l as [|a l IH]; [done|].
  rewrite filter_cons. destruct (decide (Q a)) as [Hq|Hq].
  - cbn [list_find]. destruct (decide (P a)) as [Hp|Hp].
    + intros [= <-]. exists [], l. by split_and!.
    + rewrite <- option_fmap_compose.
      intros Hfind. destruct (IH Hfind) as (pre & post & -> & Hqx & Hpx & Hpre).
      exists (a :: pre), post. split_and!; try done.
      constructor; [tauto|done].
  - intros Hfind. destruct (IH Hfind) as (pre & post & -> & Hqx & Hpx & Hpre).
    exists (a :: pre), post. split_and!; try done.
    constructor; [tauto|done].
Qed.

Lemma find_filter_None (l : list A) :
  snd <$> list_find P (filter Q l) = None ↔ ∀ a, a ∈ l → Q a → ¬ P a.
Proof.
  rewrite fmap_None, list_find_None, Forall_forall. split.
  - intros Hnone a Ha Hq. by apply Hnone, list_elem_of_filter.
  - intros Hnone a [Hq Ha]%list_elem_of_filter. by apply Hnone.
Qed.

End find_in_filter.

Lemma removeArticle_annotations article w :
  annotations (service (removeArticle article w))
  = filter (λ annotation,
              Annotation.pairKey (deref (objects w) annotation)
              ≠ Annotation.pairKey (deref (objects w) article))
           (annotations (service w)).
Proof. reflexivity. Qed.

Lemma remove_find_article_Some x y page w article :
  remove_find_article x y page w = Some article →
  ∃ pre post,
    annotations (service w) = pre ++ article :: post ∧
    hasAnnotation x y page (deref (objects w) article) = true ∧
    Annotation.tag (deref (objects w) article) = Some (AnnotationType_value Article) ∧
    Forall (λ l, ¬ (hasAnnotation x y page (deref (objects w) l) = true ∧
                    Annotation.tag (deref (objects w) l)
                    = Some (AnnotationType_value Article))) pre.
Proof.
  unfold remove_find_article, getAnnotationFromCoords.
  intros Hfind. by apply find_filter_first in Hfind.
Qed.

Lemma remove_find_article_None x y page w :
  remove_find_article x y page w = None ↔
  ∀ l, l ∈ annotations (service w) →
       hasAnnotation x y page (deref (objects w) l) = true →
       Annotation.tag (deref (objects w) l) ≠ Some (AnnotationType_value Article).
Proof.
  unfold remove_find_article, getAnnotationFromCoords. apply find_filter_None.
Qed.

#[global] Instance hitTest_spec_dec x y page region :
  Decision (hitTest_spec x y page region).
Proof. unfold hitTest_spec. apply _. Defined.

Lemma filter_iff_on {A} (P Q : A → Prop)
  `{!∀ a, Decision (P a)} `{!∀ a, Decision (Q a)} (l : list A) :
  (∀ a, a ∈ l → P a ↔ Q a) → filter P l = filter Q l.
Proof.
  induction l as [|a l IH]; intros Hiff; [done|].
  rewrite !filter_cons.
  pose proof (Hiff a (list_elem_of_here a l)) as Ha.
  rewrite IH by (intros b Hb; apply Hiff; by apply list_elem_of_further).
  destruct (decide (P a)), (decide (Q a)); tauto || done.
Qed.

(** On a store without negative extents the code's hit test is the
    specification's. *)
Lemma nonneg_extents_hits x y page w l :
  nonneg_extents w → l ∈ annotations (service w) →
  hasAnnotation x y page (deref (objects w) l) = true
  ↔ hitTest_spec x y page (deref (objects w) l).
Proof.
  intros Hnonneg Hl. unfold nonneg_extents in Hnonneg.
  rewrite Forall_forall in Hnonneg. destruct (Hnonneg l Hl).
  by apply hasAnnotation_nonneg_extent.
Qed.

(** C2. On a store without negative extents, with a region under a
    point when the point is on its page and within its bounds on both
    axes: when some region under the point is tagged ["article"],
    [remove] keeps exactly the regions whose [pairKey] is not strictly
    equal to that of the first such region in store order, whatever
    their page and whether or not they lie under the point; when no
    region under the point is tagged ["article"], it keeps exactly the
    regions that do not lie under the point. The order of the survivors
    and the objects themselves are unchanged. *)
Theorem remove_cascade_or_matching (x y page : Z) (w : World) :
  nonneg_extents w →
  let hits l := hitTest_spec x y page (deref (objects w) l) in
  let is_article l :=
    Annotation.tag (deref (objects w) l) = Some (AnnotationType_value Article) in
  ((∃ l, l ∈ annotations (service w) ∧ hits l ∧ is_article l) →
   ∃ pre article post,
     annotations (service w) = pre ++ article :: post ∧
     hits article ∧ is_article article ∧
     Forall (λ l, ¬ (hits l ∧ is_article l)) pre ∧
     annotations (service (remove x y page w))
     = filter (λ l, Annotation.pairKey (deref (objects w) l)
                    ≠ Annotation.pairKey (deref (objects w) article))
              (annotations (service w)) ∧
     ∀ l, l ∈ annotations (service (remove x y page w)) ↔
          l ∈ annotations (service w) ∧
          Annotation.pairKey (deref (objects w) l)
          ≠ Annotation.pairKey (deref (objects w) article)) ∧
  ((¬ ∃ l, l ∈ annotations (service w) ∧ hits l ∧ is_article l) →
   annotations (service (remove x y page w))
   = filter (λ l, ¬ hits l) (annotations (service w)) ∧
   ∀ l, l ∈ annotations (service (remove x y page w)) ↔
        l ∈ annotations (service w) ∧ ¬ hits l) ∧
  objects (remove x y page w) = objects w.
Proof.
  intros Hnonneg hits is_article.
  assert (Hhit : ∀ l, l ∈ annotations (service w) →
            hasAnnotation x y page (deref (objects w) l) = true ↔ hits l).
  { intros l Hl. by apply nonneg_extents_hits. }
  split_and!; [| |apply remove_frame].
  - intros (l & Hl & Hl_hit & Htag).
    destruct (remove_find_article x y page w) as [article|] eqn:Hfind.
    + destruct (remove_find_article_Some _ _ _ _ _ Hfind)
        as (pre & post & Hsplit & Hhit' & Htag' & Hpre).
      assert (Hin : article ∈ annotations (service w)).
      { rewrite Hsplit. apply elem_of_app. right. apply elem_of_cons. by left. }
      exists pre, article, post.
      unfold remove. rewrite Hfind, removeArticle_annotations.
      split_and!; try done.
      * by apply Hhit.
      * apply Forall_forall. intros k Hk [Hk_hit Hk_tag].
        rewrite Forall_forall in Hpre. apply (Hpre k Hk). split; [|done].
        apply Hhit; [|done]. rewrite Hsplit. apply elem_of_app. by left.
      * intros l'. rewrite list_elem_of_filter. tauto.
    + exfalso.
      apply (proj1 (remove_find_article_None x y page w) Hfind l Hl); [|done].
      by apply Hhit.
  - intros Hnone.
    destruct (remove_find_article x y page w) as [article|] eqn:Hfind.
    + exfalso. apply Hnone. exists article.
      destruct (remove_find_article_Some _ _ _ _ _ Hfind)
        as (pre & post & Hsplit & Hhit' & Htag' & _).
      assert (Hin : article ∈ annotations (service w)).
      { rewrite Hsplit. apply elem_of_app. right. apply elem_of_cons. by left. }
      split_and!; [done| |done]. by apply Hhit.
    + unfold remove. rewrite Hfind. unfold with_service.
      cbn [service annotations set_annotations].
      assert (Heq : filter (λ annotation,
                              ¬ hasAnnotation x y page (deref (objects w) annotation) = true)
                           (annotations (service w))
                    = filter (λ l, ¬ hits l) (annotations (service w))).
      { apply filter_iff_on. intros l Hl. by rewrite (Hhit l Hl). }
      rewrite Heq. split; [done|].
      intros l'. rewrite list_elem_of_filter. tauto.
Qed.

(** With two articles of different records under one point, [remove]
    cascades from the first only: the second article lies under the
    point, by the code's test and by the specification's, and is still
    in the store afterwards, with the author of its record. And the
    article dragged up and to the left lies under (7,7) by the
    specification's test, yet [remove] there deletes nothing. *)
Lemma remove_keeps_second_article :
  7%positive ∈ annotations (service two_articles_session) ∧
  hasAnnotation 5 5 0 (deref (objects two_articles_session) 7%positive) = true ∧
  hitTest_spec 5 5 0 (deref (objects two_articles_session) 7%positive) ∧
  Annotation.tag (deref (objects two_articles_session) 7%positive)
  = Some (AnnotationType_value Article) ∧
  7%positive ∈ annotations (service (remove 5 5 0 two_articles_session)) ∧
  store_contents (remove 5 5 0 two_articles_session)
  = [Annotation.mk 0 0 10 10 0 (defined 3) (Some "content"%string);
     Annotation.mk 0 0 10 10 0 (defined 1) (Some "article"%string);
     Annotation.mk 20 20 5 5 0 (defined 1) (Some "author"%string)] ∧
  hitTest_spec 7 7 0 (deref (objects drag_up_left_session) 2%positive) ∧
  Annotation.tag (deref (objects drag_up_left_session) 2%positive)
  = Some (AnnotationType_value Article) ∧
  annotations (service (remove 7 7 0 drag_up_left_session)) = [2%positive].
Proof.
  split_and!; try (apply (bool_decide_unpack _)); by vm_compute.
Qed.

(** C3. When the region that [remove] resolves under the point is
    tagged ["article"] and its [pairKey] is unset, absent or [null],
    the store keeps exactly the regions whose [pairKey] is not strictly
    equal to it: every region whose [pairKey] is unset in the same way
    is deleted, on whatever page and whether or not it lies under the
    point, and every region whose [pairKey] is a number or is unset the
    other way is kept. *)
Theorem remove_article_without_pairKey (x y page : Z) (w : World) (article : loc) :
  remove_find_article x y page w = Some article →
  unset (Annotation.pairKey (deref (objects w) article)) →
  annotations (service (remove x y page w))
  = filter (λ l, Annotation.pairKey (deref (objects w) l)
                 ≠ Annotation.pairKey (deref (objects w) article))
           (annotations (service w)) ∧
  (∀ l, l ∈ annotations (service w) →
        Annotation.pairKey (deref (objects w) l)
        = Annotation.pairKey (deref (objects w) article) →
        l ∉ annotations (service (remove x y page w))) ∧
  (∀ l k, l ∈ annotations (service w) →
          Annotation.pairKey (deref (objects w) l) = defined k →
          l ∈ annotations (service (remove x y page w))) ∧
  (∀ l, l ∈ annotations (service w) →
        unset (Annotation.pairKey (deref (objects w) l)) →
        Annotation.pairKey (deref (objects w) l)
        ≠ Annotation.pairKey (deref (objects w) article) →
        l ∈ annotations (service (remove x y page w))).
Proof.
  intros Hfind Hunset. unfold remove. rewrite Hfind, removeArticle_annotations.
  split_and!.
  - done.
  - intros l _ Hsame (Hne & _)%list_elem_of_filter. done.
  - intros l k Hl Hk. apply list_elem_of_filter. split; [|done].
    rewrite Hk. by destruct Hunset as [-> | ->].
  - intros l Hl _ Hne. by apply list_elem_of_filter.
Qed.

(** In [mixed_session] the article on page 0 has no [pairKey] and the
    title loaded for page 5 has [pairKey] [null]: both are unset, and
    [remove] at a point inside the article keeps the title. *)
Lemma remove_keeps_null_pairKey :
  remove_find_article 100 100 0 mixed_session = Some 3%positive ∧
  Annotation.pairKey (deref (objects mixed_session) 3%positive) = undefined ∧
  6%positive ∈ annotations (service mixed_session) ∧
  Annotation.pairKey (deref (objects mixed_session) 6%positive) = null ∧
  6%positive ∈ annotations (service (remove 100 100 0 mixed_session)) ∧
  store_contents (remove 100 100 0 mixed_session) = [null_pairKey_title].
Proof.
  split_and!; try (apply (bool_decide_unpack _)); by vm_compute.
Qed.

(** ** Copies and the heap *)

Lemma alloc_fresh h a : fst (alloc h a) ∉ dom h.
Proof. apply is_fresh. Qed.

Lemma alloc_lookup_new h a : snd (alloc h a) !! fst (alloc h a) = Some a.
Proof. apply lookup_insert_eq. Qed.

Lemma alloc_lookup_old h a l : l ∈ dom h → snd (alloc h a) !! l = h !! l.
Proof.
  intros Hl. apply lookup_insert_ne. intros <-. by apply (alloc_fresh h a).
Qed.

Lemma alloc_dom h a : dom (snd (alloc h a)) = {[fst (alloc h a)]} ∪ dom h.
Proof. apply dom_insert_L. Qed.

(** The four facts about one allocation, as hypotheses. *)
Ltac alloc_facts h a Hfresh Hnew Hold Hdom :=
  pose proof (alloc_fresh h a) as Hfresh;
  pose proof (alloc_lookup_new h a) as Hnew;
  pose proof (alloc_lookup_old h a) as Hold;
  pose proof (alloc_dom h a) as Hdom.

Lemma deref_agree h h' l : h' !! l = h !! l → deref h' l = deref h l.
Proof. unfold deref. rewrite !lookup_total_alt. by intros ->. Qed.

Lemma deref_Some h l a : h !! l = Some a → deref h l = a.
Proof. unfold deref. rewrite lookup_total_alt. by intros ->. Qed.

Lemma fmap_deref_agree h h' (ls : list loc) :
  Forall (λ l, h' !! l = h !! l) ls → deref h' <$> ls = deref h <$> ls.
Proof.
  intros Hall. apply list_fmap_ext. intros i l Hl.
  apply deref_agree. rewrite Forall_forall in Hall.
  by eapply Hall, list_elem_of_lookup_2.
Qed.

(** What [map_Object_assign_new] does when every reference to copy
    designates an object: the copies have the fields of the originals,
    in order; no existing object is touched; each copy is a new object
    and no two copies are the same object. *)
Lemma map_Object_assign_new_spec ls : ∀ h,
  Forall (λ l, l ∈ dom h) ls →
  deref (snd (map_Object_assign_new h ls)) <$> fst (map_Object_assign_new h ls)
  = deref h <$> ls ∧
  (∀ l, l ∈ dom h → snd (map_Object_assign_new h ls) !! l = h !! l) ∧
  dom h ⊆ dom (snd (map_Object_assign_new h ls)) ∧
  Forall (λ l, (l ∉ dom h) ∧ l ∈ dom (snd (map_Object_assign_new h ls)))
         (fst (map_Object_assign_new h ls)) ∧
  NoDup (fst (map_Object_assign_new h ls)).
Proof.
  induction ls as [|l ls IH]; intros h Hls.
  { simpl. split_and!; [done|done|done|constructor|constructor]. }
  apply Forall_cons in Hls as [Hl Hls].
  cbn [map_Object_assign_new]. unfold Object_assign_new.
  alloc_facts h (h !!! l) Hfresh Hnew Hold Hdom.
  destruct (alloc h (h !!! l)) as [l' h1]. cbn [fst snd] in Hfresh, Hnew, Hold, Hdom.
  assert (Hgrow : ∀ k, k ∈ dom h → k ∈ dom h1).
  { intros k Hk. rewrite Hdom. apply elem_of_union. by right. }
  assert (Hl'1 : l' ∈ dom h1).
  { rewrite Hdom. apply elem_of_union. left. by apply elem_of_singleton. }
  assert (Hls1 : Forall (λ l, l ∈ dom h1) ls).
  { eapply Forall_impl; [exact Hls|]. exact Hgrow. }
  destruct (IH h1 Hls1) as (Hvals & Hkeep & Hsub & Hnews & Hnodup).
  destruct (map_Object_assign_new h1 ls) as [ls' h2]. cbn [fst snd] in *.
  split_and!.
  - rewrite !fmap_cons. f_equal.
    + apply deref_Some. by rewrite (Hkeep l' Hl'1).
    + rewrite Hvals. apply fmap_deref_agree.
      eapply Forall_impl; [exact Hls|]. intros k Hk. by apply Hold.
  - intros k Hk. rewrite Hkeep by by apply Hgrow. by apply Hold.
  - intros k Hk. by apply Hsub, Hgrow.
  - constructor.
    + split; [done|]. by apply Hsub.
    + eapply Forall_impl; [exact Hnews|]. intros k [Hk1 Hk2]. split; [|done].
      intros Hk. by apply Hk1, Hgrow.
  - constructor; [|done].
    intros Hin. rewrite Forall_forall in Hnews.
    destruct (Hnews l' Hin) as [Hout _]. done.
Qed.

Lemma mutate_lookup_ne l a h k : k ≠ l → mutate l a h !! k = h !! k.
Proof.
  intros Hne. unfold mutate. destruct (h !! l); [|done].
  by apply lookup_insert_ne.
Qed.

Lemma mutate_lookup l a h : l ∈ dom h → mutate l a h !! l = Some a.
Proof.
  intros [b Hb]%elem_of_dom. unfold mutate. rewrite Hb. apply lookup_insert_eq.
Qed.

Lemma mutate_dom l a h : dom (mutate l a h) = dom h.
Proof.
  unfold mutate. destruct (h !! l) as [b|] eqn:Hl; [|done].
  rewrite dom_insert_L. apply elem_of_dom_2 in Hl.
  apply set_eq. intros k. rewrite elem_of_union, elem_of_singleton.
  split; [intros [->|?]; done|by right].
Qed.

Lemma heap_closed_elem w l :
  heap_closed w → l ∈ annotations (service w) → l ∈ dom (objects w).
Proof. unfold heap_closed. rewrite Forall_forall. auto. Qed.

Lemma setAnnotation_heap_closed annotation w :
  heap_closed w → heap_closed (setAnnotation annotation w).
Proof.
  intros Hclosed. unfold setAnnotation, Object_assign_new.
  alloc_facts (objects w) (objects w !!! annotation) Hfresh Hnew Hold Hdom.
  destruct (alloc _ _) as [l h]. cbn [fst snd] in *.
  unfold heap_closed. cbn [objects service annotations set_annotations].
  apply Forall_app. split.
  - eapply Forall_impl; [exact Hclosed|]. intros k Hk.
    rewrite Hdom. apply elem_of_union. by right.
  - constructor; [|constructor].
    rewrite Hdom. apply elem_of_union. left. by apply elem_of_singleton.
Qed.

(** [setAnnotation] appends to the store a new object with the fields
    of the one handed in. *)
Lemma setAnnotation_spec annotation r w :
  heap_closed w → objects w !! annotation = Some r →
  store_contents (setAnnotation annotation w) = store_contents w ++ [r] ∧
  (∀ l, l ∈ dom (objects w) → objects (setAnnotation annotation w) !! l = objects w !! l) ∧
  ∃ l, annotations (service (setAnnotation annotation w)) = annotations (service w) ++ [l] ∧
       l ∉ dom (objects w).
Proof.
  intros Hclosed Hr. unfold setAnnotation, Object_assign_new.
  alloc_facts (objects w) (objects w !!! annotation) Hfresh Hnew Hold Hdom.
  destruct (alloc _ _) as [l h]. cbn [fst snd] in *.
  unfold store_contents. cbn [objects service annotations set_annotations].
  split_and!; [|done|by exists l].
  rewrite fmap_app. f_equal.
  - apply fmap_deref_agree. eapply Forall_impl; [exact Hclosed|]. exact Hold.
  - simpl. f_equal. apply deref_Some. rewrite Hnew. f_equal.
    by apply (deref_Some (objects w)).
Qed.

(** X2. The store does not share the object handed to
    [setAnnotation]: when the caller assigns to the fields of its own
    object afterwards (the canvas reuses one object for every drag),
    the stored regions stay as they are. *)
Lemma setAnnotation_caller_isolated annotation r a w :
  heap_closed w → objects w !! annotation = Some r →
  annotation ∉ annotations (service w) →
  store_contents (run (OpCallerMutate annotation a) (setAnnotation annotation w))
  = store_contents (setAnnotation annotation w).
Proof.
  intros Hclosed Hr Hown.
  destruct (setAnnotation_spec annotation r w Hclosed Hr) as (_ & _ & l & Hann & Hl).
  unfold store_contents. cbn [run objects service]. rewrite Hann.
  apply fmap_deref_agree, Forall_forall. intros k Hk.
  apply mutate_lookup_ne. intros ->.
  apply elem_of_app in Hk as [Hk|Hk]; [done|].
  apply list_elem_of_singleton in Hk as ->.
  apply Hl. by apply elem_of_dom_2 in Hr.
Qed.

(** [getAnnotations] returns new objects with the fields of the stored
    regions of the page, in store order, and leaves the store as it
    was. *)
Lemma getAnnotations_spec page w :
  heap_closed w →
  service (snd (getAnnotations page w)) = service w ∧
  deref (objects (snd (getAnnotations page w))) <$> fst (getAnnotations page w)
  = filter (λ a, Annotation.page a = page) (store_contents w) ∧
  (∀ l, l ∈ dom (objects w) → objects (snd (getAnnotations page w)) !! l = objects w !! l) ∧
  dom (objects w) ⊆ dom (objects (snd (getAnnotations page w))) ∧
  Forall (λ l, (l ∉ dom (objects w)) ∧ l ∈ dom (objects (snd (getAnnotations page w))))
         (fst (getAnnotations page w)) ∧
  NoDup (fst (getAnnotations page w)).
Proof.
  intros Hclosed. unfold getAnnotations.
  set (selected := filter _ (annotations (service w))).
  assert (Hsel : Forall (λ l, l ∈ dom (objects w)) selected).
  { apply Forall_forall. intros l [_ Hl]%list_elem_of_filter.
    by apply heap_closed_elem. }
  destruct (map_Object_assign_new_spec selected (objects w) Hsel)
    as (Hvals & Hkeep & Hsub & Hnews & Hnodup).
  destruct (map_Object_assign_new (objects w) selected) as [copies h].
  cbn [fst snd objects service] in *.
  split_and!; try done.
  rewrite Hvals. unfold selected, store_contents. by apply fmap_filter_comm.
Qed.

Lemma getAnnotations_store_contents page w :
  heap_closed w → store_contents (snd (getAnnotations page w)) = store_contents w.
Proof.
  intros Hclosed.
  destruct (getAnnotations_spec page w Hclosed) as (Hsvc & _ & Hkeep & _).
  unfold store_contents. rewrite Hsvc. apply fmap_deref_agree.
  eapply Forall_impl; [exact Hclosed|]. exact Hkeep.
Qed.


(** ** Store references stay valid *)

Lemma setServerAnnotations_heap_closed annotations w :
  heap_closed w → heap_closed (setServerAnnotations annotations w).
Proof.
  unfold setServerAnnotations. revert w.
  induction annotations as [|a l IH]; intros w Hclosed; [done|].
  simpl. by apply IH, setAnnotation_heap_closed.
Qed.

Lemma getAnnotations_heap_closed page w :
  heap_closed w → heap_closed (snd (getAnnotations page w)).
Proof.
  intros Hclosed.
  destruct (getAnnotations_spec page w Hclosed) as (Hsvc & _ & _ & Hsub & _).
  unfold heap_closed. rewrite Hsvc.
  eapply Forall_impl; [exact Hclosed|]. intros k Hk. by apply Hsub.
Qed.

Lemma remove_heap_closed x y page w :
  heap_closed w → heap_closed (remove x y page w).
Proof.
  intros Hclosed. unfold heap_closed.
  destruct (remove_keeps_objects x y page w) as (Hobj & Hsub).
  rewrite Hobj. apply Forall_forall. intros l Hl.
  by apply heap_closed_elem, Hsub.
Qed.

Lemma with_service_heap_closed f w :
  (∀ l, l ∈ annotations (f (service w)) → l ∈ annotations (service w)) →
  heap_closed w → heap_closed (with_service f w).
Proof.
  intros Hsub Hclosed. unfold heap_closed. cbn [with_service objects service].
  apply Forall_forall. intros l Hl. by apply heap_closed_elem, Hsub.
Qed.

Lemma setPagesProperties_annotations pageProperties h this :
  annotations (setPagesProperties pageProperties h this) = annotations this.
Proof. unfold setPagesProperties. by destruct (list_find _ _). Qed.

Lemma run_heap_closed op w : heap_closed w → heap_closed (run op w).
Proof.
  destruct op; cbn [run].
  - apply with_service_heap_closed. by intros l Hl%elem_of_nil.
  - apply setServerAnnotations_heap_closed.
  - apply setAnnotation_heap_closed.
  - apply getAnnotations_heap_closed.
  - by apply with_service_heap_closed.
  - apply with_service_heap_closed. by rewrite setPagesProperties_annotations.
  - apply with_service_heap_closed. by intros l Hl%elem_of_nil.
  - apply remove_heap_closed.
  - by apply with_service_heap_closed.
  - by apply with_service_heap_closed.
  - by apply with_service_heap_closed.
  - by apply with_service_heap_closed.
  - by apply with_service_heap_closed.
  - unfold heap_closed. cbn [objects service].
    intros Hclosed. eapply Forall_impl; [exact Hclosed|]. intros k Hk.
    rewrite alloc_dom. apply elem_of_union. by right.
  - unfold heap_closed. cbn [objects service]. by rewrite mutate_dom.
  - done.
  - done.
Qed.

Lemma reachable_heap_closed w : reachable w → heap_closed w.
Proof.
  induction 1 as [|op w _ IH]; [constructor|by apply run_heap_closed].
Qed.

Lemma reachable_run_all ops : ∀ w, reachable w → reachable (run_all ops w).
Proof.
  unfold run_all. induction ops as [|op ops IH]; intros w Hw; [done|].
  simpl. apply IH. by constructor.
Qed.

(** ** The theorems at work on the example sessions *)

(** Deleting at a point inside the article box of [server_session]
    removes the whole record, on pages 0, 1 and 2, and keeps the title
    of the other record. *)
Lemma remove_cascade_or_matching_witness :
  nonneg_extents server_session ∧
  (∃ l, l ∈ annotations (service server_session) ∧
        hitTest_spec 70 70 0 (deref (objects server_session) l) ∧
        Annotation.tag (deref (objects server_session) l)
        = Some (AnnotationType_value Article)) ∧
  store_contents (remove 70 70 0 server_session) = [server_other].
Proof.
  assert (Hnonneg : nonneg_extents server_session).
  { apply (bool_decide_unpack _). by vm_compute. }
  assert (Hex : ∃ l, l ∈ annotations (service server_session) ∧
        hitTest_spec 70 70 0 (deref (objects server_session) l) ∧
        Annotation.tag (deref (objects server_session) l)
        = Some (AnnotationType_value Article)).
  { exists 6%positive. split_and!; try (apply (bool_decide_unpack _)); by vm_compute. }
  split_and!; [exact Hnonneg|exact Hex|].
  destruct (remove_cascade_or_matching 70 70 0 server_session Hnonneg) as [Hcascade _].
  destruct (Hcascade Hex) as (pre & article & post & Hsplit & _ & Htag & Hpre & Hkept & _).
  unfold store_contents.
  destruct (remove_keeps_objects 70 70 0 server_session) as [-> _].
  rewrite Hkept.
  assert (article = 6%positive) as ->.
  { change (annotations (service server_session)) with [6; 7; 8; 9; 10]%positive in Hsplit.
    destruct pre as [|first pre]; [by injection Hsplit|].
    injection Hsplit as <- Hrest. apply Forall_cons in Hpre as [Hfirst _].
    exfalso. apply Hfirst. split; [apply (bool_decide_unpack _)|]; by vm_compute. }
  by vm_compute.
Defined.

(** In [canvas_session] no region has a [pairKey]; deleting at a point
    inside the article on page 0 also deletes the title on page 5. *)
Lemma remove_article_without_pairKey_witness :
  remove_find_article 100 100 0 canvas_session = Some 3%positive ∧
  unset (Annotation.pairKey (deref (objects canvas_session) 3%positive)) ∧
  Annotation.page <$> store_contents canvas_session = [0; 5] ∧
  annotations (service (remove 100 100 0 canvas_session)) = [].
Proof.
  assert (Hfind : remove_find_article 100 100 0 canvas_session = Some 3%positive)
    by by vm_compute.
  assert (Hkey : unset (Annotation.pairKey (deref (objects canvas_session) 3%positive))).
  { left. by vm_compute. }
  split_and!; [done|done|by vm_compute|].
  destruct (remove_article_without_pairKey 100 100 0 canvas_session 3%positive Hfind Hkey)
    as [-> _].
  by vm_compute.
Defined.


(** An article and its title with the same [pairKey] on a registered
    page: deleting at (70,70), inside both, empties the store. *)
Example delete_article_with_title_empties_store :
  let w :=
    run_all
      [OpCallerAllocPage {| pageIndex := 0;
                            pageDimensions := {| width := 600; height := 800 |} |};
       OpSetPagesProperties 1%positive;
       OpCallerAlloc server_article; OpSetAnnotation 1%positive;
       OpCallerAlloc server_title; OpSetAnnotation 3%positive]
      initial_world in
  store_contents w = [server_article; server_title] ∧
  store_contents (remove 70 70 0 w) = [].
Proof. by vm_compute. Qed.

(** Deleting at the author's own place on page 1 removes the author
    only. *)
Example delete_label_removes_only_it :
  store_contents (remove 12 12 1 server_session)
  = [server_article; server_title; server_content; server_other].
Proof. by vm_compute. Qed.

(** After a load from the server and a flush no page lists a region,
    and the page registered before the load is still registered. *)
Example flush_keeps_registry :
  let w := run OpFlushAnnotations server_session in
  fst (getAnnotations 0 w) = [] ∧
  registry_contents w
  = [{| pageIndex := 0; pageDimensions := {| width := 600; height := 800 |} |}] ∧
  pagesProperties (clear (service w)) = [].
Proof. by vm_compute. Qed.

(** Five keys in a row, and the first key after a [clear]. *)
Example five_keys_then_clear :
  fst (getNextArticleID_times 5 initial) = [1; 2; 3; 4; 5] ∧
  fst (getNextArticleID (clear (snd (getNextArticleID_times 5 initial)))) = 1.
Proof. by vm_compute. Qed.

(** * Further properties of the service *)

(** ** Generic list facts, continued *)

Section first_match.
  Context {A : Type} (P : A → Prop) `{!∀ a, Decision (P a)}.

Lemma head_filter_find (l : list A) :
  head (filter P l) = snd <$> list_find P l.
Proof.
  induction l as [|a l IH]; [done|].
  rewrite filter_cons. cbn [list_find].
  destruct (decide (P a)); [done|].
  by rewrite IH, <- option_fmap_compose.
Qed.


Lemma filter_none_complement (l : list A) :
  filter P l = [] → filter (λ a, ¬ P a) l = l.
Proof.
  induction l as [|a l IH]; [done|].
  rewrite !filter_cons.
  destruct (decide (P a)), (decide (¬ P a)); try done.
  intros Hnil. by rewrite (IH Hnil).
Qed.

Lemma filter_of_complement (l : list A) :
  filter P (filter (λ a, ¬ P a) l) = [].
Proof.
  induction l as [|a l IH]; [done|].
  rewrite filter_cons. destruct (decide (¬ P a)) as [Hn|Hn]; [|done].
  rewrite filter_cons. by destruct (decide (P a)).
Qed.

End first_match.

(** ** Removal and the queries at a point *)

Lemma World_eta w :
  {| objects := objects w; pageObjects := pageObjects w; service := service w |} = w.
Proof. by destruct w. Qed.

Lemma set_annotations_same this : set_annotations (annotations this) this = this.
Proof. by destruct this. Qed.

Lemma remove_unchanged_when_nothing_hit x y page w :
  getAnnotationFromCoords x y page w = [] → remove x y page w = w.
Proof.
  intros Hnone. unfold remove, remove_find_article. rewrite Hnone. cbn [list_find fmap option_fmap option_map].
  unfold with_service.
  unfold getAnnotationFromCoords in Hnone.
  rewrite (filter_none_complement _ _ Hnone), set_annotations_same.
  apply World_eta.
Qed.

(** X4. [remove] cascades exactly when [getArticle] finds something at
    the point, and then from the first region [getArticle] returns;
    when [getArticle] finds nothing, it deletes the regions under the
    point. *)
Theorem getArticle_decides_remove (x y page : Z) (w : World) :
  remove_find_article x y page w = head (getArticle x y page w) ∧
  (getArticle x y page w = [] →
   annotations (service (remove x y page w))
   = filter (λ l, ¬ hasAnnotation x y page (deref (objects w) l) = true)
            (annotations (service w))) ∧
  (∀ article others,
     getArticle x y page w = article :: others →
     annotations (service (remove x y page w))
     = filter (λ l, Annotation.pairKey (deref (objects w) l)
                    ≠ Annotation.pairKey (deref (objects w) article))
              (annotations (service w))).
Proof.
  assert (Hhead : remove_find_article x y page w = head (getArticle x y page w)).
  { unfold remove_find_article, getArticle. symmetry. apply head_filter_find. }
  split_and!; [done| |].
  - intros Hnil. unfold remove. by rewrite Hhead, Hnil.
  - intros article others Hcons. unfold remove. by rewrite Hhead, Hcons.
Qed.

(** X5. When no article is under the point, after [remove] no region
    is under the point and a second [remove] at the same point changes
    nothing; when no region at all is under the point, [remove] itself
    changes nothing. *)
Theorem remove_without_article_settles (x y page : Z) (w : World) :
  (remove_find_article x y page w = None →
   getAnnotationFromCoords x y page (remove x y page w) = [] ∧
   remove x y page (remove x y page w) = remove x y page w) ∧
  (getAnnotationFromCoords x y page w = [] → remove x y page w = w).
Proof.
  split; [|apply remove_unchanged_when_nothing_hit].
  intros Hnone.
  assert (Hgone : getAnnotationFromCoords x y page (remove x y page w) = []).
  { unfold remove. rewrite Hnone. unfold getAnnotationFromCoords, with_service.
    cbn [objects service annotations set_annotations].
    apply (filter_of_complement
             (λ l, hasAnnotation x y page (deref (objects w) l) = true)). }
  split; [done|]. by apply remove_unchanged_when_nothing_hit.
Qed.

(** X7. A stored region with a negative extent on either axis is under
    no point: neither query returns it, and [remove] deletes it only by
    a cascade from an article. *)
Theorem negative_extent_only_cascade_deletes (w : World) (l : loc) :
  l ∈ annotations (service w) →
  Annotation.xEnd (deref (objects w) l) < 0 ∨ Annotation.yEnd (deref (objects w) l) < 0 →
  ∀ x y page,
    (l ∉ getAnnotationFromCoords x y page w) ∧
    (l ∉ getArticle x y page w) ∧
    (remove_find_article x y page w = None →
     l ∈ annotations (service (remove x y page w))).
Proof.
  intros Hl Hneg x y page.
  assert (Hmiss : hasAnnotation x y page (deref (objects w) l) = false).
  { apply not_true_is_false. rewrite hasAnnotation_true. lia. }
  assert (Hout : l ∉ getAnnotationFromCoords x y page w).
  { unfold getAnnotationFromCoords. intros [Hhit _]%list_elem_of_filter. congruence. }
  split_and!; [done| |].
  - unfold getArticle. intros [_ Hin]%list_elem_of_filter. done.
  - intros Hnone. unfold remove. rewrite Hnone. unfold with_service.
    cbn [service annotations set_annotations].
    apply list_elem_of_filter. split; [congruence|done].
Qed.

Lemma negative_extent_only_cascade_deletes_witness :
  2%positive ∈ annotations (service drag_up_left_session) ∧
  (Annotation.xEnd (deref (objects drag_up_left_session) 2%positive) < 0 ∨
   Annotation.yEnd (deref (objects drag_up_left_session) 2%positive) < 0) ∧
  (2%positive ∉ getAnnotationFromCoords 7 7 0 drag_up_left_session).
Proof.
  assert (Hin : 2%positive ∈ annotations (service drag_up_left_session)).
  { apply (bool_decide_unpack _). by vm_compute. }
  assert (Hneg : Annotation.xEnd (deref (objects drag_up_left_session) 2%positive) < 0 ∨
                 Annotation.yEnd (deref (objects drag_up_left_session) 2%positive) < 0).
  { left. by vm_compute. }
  split_and!; [done|done|].
  by destruct (negative_extent_only_cascade_deletes drag_up_left_session 2%positive
                 Hin Hneg 7 7 0) as [Hout _].
Defined.

(** ** Pairing keys over a whole session *)

Lemma setServerAnnotations_frame annotations w :
  ∃ l, service (setServerAnnotations annotations w) = set_annotations l (service w).
Proof.
  unfold setServerAnnotations. revert w.
  induction annotations as [|a ls IH]; intros w.
  - exists (annotations (service w)). by rewrite set_annotations_same.
  - simpl. destruct (IH (setAnnotation a w)) as [l ->].
    destruct (setAnnotation_service a w) as [l' ->]. by exists l.
Qed.

Lemma setPagesProperties_articleID pageProperties h this :
  articleID (setPagesProperties pageProperties h this) = articleID this.
Proof. unfold setPagesProperties. by destruct (list_find _ _). Qed.

(** Apart from [clear], only [getNextArticleID] moves the counter, and
    by one. *)
Lemma run_articleID op w :
  op ≠ OpClear →
  articleID (service (run op w))
  = match op with
    | OpGetNextArticleID => articleID (service w) + 1
    | _ => articleID (service w)
    end.
Proof.
  intros Hop.
  destruct op as [|anns|ann|pg|ty|pp| |x y page| |m| |doc|p|a|l a|q|l q]; cbn [run]; try done.
  - by destruct (setServerAnnotations_frame anns w) as [l ->].
  - by rewrite getAnnotations_service.
  - apply setPagesProperties_articleID.
  - by destruct (remove_frame x y page w) as [_ [l ->]].
Qed.

Lemma issued_bounds ops : ∀ w,
  OpClear ∉ ops →
  articleID (service w) ≤ articleID (service (run_all ops w)) ∧
  Forall (λ k, articleID (service w) < k ≤ articleID (service (run_all ops w)))
         (issued ops w) ∧
  StronglySorted Z.lt (issued ops w).
Proof.
  induction ops as [|op ops IH]; intros w Hclear.
  { simpl. split_and!; [lia|constructor|constructor]. }
  apply not_elem_of_cons in Hclear as [Hop Hclear].
  destruct (IH (run op w) Hclear) as (Hle & Hall & Hsorted).
  pose proof (run_articleID op w (not_eq_sym Hop)) as Hstep.
  change (run_all (op :: ops) w) with (run_all ops (run op w)).
  assert (Hmono : articleID (service w) ≤ articleID (service (run op w))).
  { rewrite Hstep. destruct op; lia. }
  assert (Hall' : Forall (λ k, articleID (service w) < k
                               ≤ articleID (service (run_all ops (run op w))))
                         (issued ops (run op w))).
  { eapply Forall_impl; [exact Hall|]. simpl. lia. }
  assert (Hkey : fst (getNextArticleID (service w)) = articleID (service w) + 1)
    by reflexivity.
  destruct op; cbn [issued]; cbv beta iota in Hstep;
    try (split_and!; [lia|done|done]).
  rewrite Hkey. split_and!; [lia| |].
  - constructor; [lia|done].
  - constructor; [done|].
    eapply Forall_impl; [exact Hall|]. simpl. lia.
Qed.

(** X13. Over any sequence of operations without [clear], whatever
    else is called in between, the keys [getNextArticleID] hands out
    are strictly increasing, hence pairwise distinct, and all lie above
    the counter the sequence started from. *)
Theorem issued_keys_increase (ops : list Operation) (w : World) :
  OpClear ∉ ops →
  StronglySorted Z.lt (issued ops w) ∧
  NoDup (issued ops w) ∧
  Forall (λ k, articleID (service w) < k) (issued ops w).
Proof.
  intros Hclear. destruct (issued_bounds ops w Hclear) as (_ & Hall & Hsorted).
  split_and!; [done|by apply StronglySorted_lt_NoDup|].
  eapply Forall_impl; [exact Hall|]. simpl. lia.
Qed.

Lemma issued_keys_increase_witness :
  (OpClear ∉ [OpGetNextArticleID; OpRemove 12 12 1; OpGetNextArticleID;
              OpSetAnnotationType Title; OpFlushAnnotations; OpGetNextArticleID]) ∧
  issued [OpGetNextArticleID; OpRemove 12 12 1; OpGetNextArticleID;
          OpSetAnnotationType Title; OpFlushAnnotations; OpGetNextArticleID]
         server_session = [1; 2; 3] ∧
  NoDup (issued [OpGetNextArticleID; OpRemove 12 12 1; OpGetNextArticleID;
                 OpSetAnnotationType Title; OpFlushAnnotations; OpGetNextArticleID]
                server_session).
Proof.
  assert (Hclear : OpClear ∉ [OpGetNextArticleID; OpRemove 12 12 1; OpGetNextArticleID;
              OpSetAnnotationType Title; OpFlushAnnotations; OpGetNextArticleID]).
  { intros Hin. repeat (apply elem_of_cons in Hin as [Hin|Hin]; [discriminate|]).
    by apply elem_of_nil in Hin. }
  split_and!; [done|by vm_compute|].
  by destruct (issued_keys_increase _ server_session Hclear) as (_ & Hnodup & _).
Defined.

(** ** Looking a page up in the registry *)





(** An object registered for page 3, another for page 4, the first
    handed in again and a third object for page 3: page 3 shows the
    first object. *)
Example registry_holds_first_registration_example :
  let h : pheap :=
    list_to_map
      [(1%positive, {| pageIndex := 3; pageDimensions := {| width := 600; height := 800 |} |});
       (2%positive, {| pageIndex := 4; pageDimensions := {| width := 10; height := 20 |} |});
       (3%positive, {| pageIndex := 3; pageDimensions := {| width := 1; height := 2 |} |})] in
  pagesProperties (setPagesProperties_each [1; 2; 1; 3]%positive h initial)
  = [1; 2]%positive.
Proof. by vm_compute. Qed.

(** ** Loading a list of regions *)

Lemma deref_lookup h l : l ∈ dom h → h !! l = Some (deref h l).
Proof.
  intros [a Ha]%elem_of_dom. by rewrite (deref_Some h l a Ha).
Qed.

Lemma setServerAnnotations_spec ls : ∀ w,
  heap_closed w →
  Forall (λ l, l ∈ dom (objects w)) ls →
  store_contents (setServerAnnotations ls w)
  = store_contents w ++ (deref (objects w) <$> ls) ∧
  (∀ l, l ∈ dom (objects w) → objects (setServerAnnotations ls w) !! l = objects w !! l) ∧
  ∃ news, annotations (service (setServerAnnotations ls w))
          = annotations (service w) ++ news ∧
          Forall (λ l, l ∉ dom (objects w)) news.
Proof.
  induction ls as [|a ls IH]; intros w Hclosed Hls.
  { cbn. rewrite app_nil_r. split_and!; [done|done|].
    exists []. by rewrite app_nil_r. }
  apply Forall_cons in Hls as [Ha Hls].
  destruct (setAnnotation_spec a _ w Hclosed (deref_lookup _ _ Ha))
    as (Hstore & Hkeep & l & Hann & Hl).
  pose proof (setAnnotation_heap_closed a w Hclosed) as Hclosed1.
  assert (Hdom1 : ∀ k, k ∈ dom (objects w) → k ∈ dom (objects (setAnnotation a w))).
  { intros k Hk. apply elem_of_dom. rewrite (Hkeep k Hk). by apply elem_of_dom. }
  assert (Hls1 : Forall (λ k, k ∈ dom (objects (setAnnotation a w))) ls).
  { eapply Forall_impl; [exact Hls|]. exact Hdom1. }
  destruct (IH (setAnnotation a w) Hclosed1 Hls1) as (Hstore' & Hkeep' & news & Hann' & Hnews).
  change (setServerAnnotations (a :: ls) w)
    with (setServerAnnotations ls (setAnnotation a w)).
  split_and!.
  - rewrite Hstore', Hstore, <- app_assoc, fmap_cons. do 2 f_equal.
    apply fmap_deref_agree. eapply Forall_impl; [exact Hls|]. exact Hkeep.
  - intros k Hk. rewrite Hkeep' by by apply Hdom1. by apply Hkeep.
  - exists (l :: news). rewrite Hann', Hann, <- app_assoc. split; [done|].
    constructor; [done|].
    eapply Forall_impl; [exact Hnews|]. intros k Hk Hin. by apply Hk, Hdom1.
Qed.

(** X1. [setServerAnnotations] appends to the store, in the order of
    the list, one new object per element with the fields of that
    element (an element listed twice is stored twice); a list element
    that was not a stored object is not one afterwards, so that the
    caller's later assignments to it leave the stored regions as
    they are. *)
Theorem setServerAnnotations_appends_copies (ls : list loc) (w : World) :
  heap_closed w →
  Forall (λ l, l ∈ dom (objects w)) ls →
  store_contents (setServerAnnotations ls w)
  = store_contents w ++ (deref (objects w) <$> ls) ∧
  (∀ l a,
     l ∈ ls → l ∉ annotations (service w) →
     (l ∉ annotations (service (setServerAnnotations ls w))) ∧
     store_contents (run (OpCallerMutate l a) (setServerAnnotations ls w))
     = store_contents (setServerAnnotations ls w)).
Proof.
  intros Hclosed Hls.
  destruct (setServerAnnotations_spec ls w Hclosed Hls) as (Hstore & _ & news & Hann & Hnews).
  split; [done|]. intros l a Hl Hown.
  assert (Hout : l ∉ annotations (service (setServerAnnotations ls w))).
  { rewrite Hann. intros [Hin|Hin]%elem_of_app; [done|].
    rewrite Forall_forall in Hls, Hnews. by apply (Hnews l Hin), Hls. }
  split; [done|].
  unfold store_contents. cbn [run objects service].
  apply fmap_deref_agree, Forall_forall. intros k Hk.
  apply mutate_lookup_ne. by intros ->.
Qed.

Lemma setServerAnnotations_appends_copies_witness :
  heap_closed server_session ∧
  Forall (λ l, l ∈ dom (objects server_session)) [1; 1; 5]%positive ∧
  store_contents (setServerAnnotations [1; 1; 5]%positive server_session)
  = store_contents server_session ++ [server_article; server_article; server_other].
Proof.
  assert (Hclosed : heap_closed server_session).
  { apply reachable_heap_closed, reachable_run_all, reachable_initial. }
  assert (Hls : Forall (λ l, l ∈ dom (objects server_session)) [1; 1; 5]%positive).
  { apply (bool_decide_unpack _). by vm_compute. }
  split_and!; [done|done|].
  destruct (setServerAnnotations_appends_copies _ _ Hclosed Hls) as [-> _].
  by vm_compute.
Defined.

(** The object handed to [setAnnotation] in [server_session] is the
    caller's first object; overwriting it afterwards changes no stored
    region. *)
Lemma setAnnotation_caller_isolated_witness :
  heap_closed server_session ∧
  objects server_session !! 1%positive = Some server_article ∧
  (1%positive ∉ annotations (service server_session)) ∧
  store_contents
    (run (OpCallerMutate 1%positive server_other) (setAnnotation 1%positive server_session))
  = store_contents server_session ++ [server_article].
Proof.
  assert (Hclosed : heap_closed server_session).
  { apply reachable_heap_closed, reachable_run_all, reachable_initial. }
  assert (Hobj : objects server_session !! 1%positive = Some server_article)
    by by vm_compute.
  assert (Hown : 1%positive ∉ annotations (service server_session)).
  { apply (bool_decide_unpack _). by vm_compute. }
  split_and!; [done|done|done|].
  rewrite (setAnnotation_caller_isolated 1%positive server_article server_other
             server_session Hclosed Hobj Hown).
  by destruct (setAnnotation_spec 1%positive server_article server_session Hclosed Hobj)
    as [-> _].
Defined.

(** ** Queries that hand out the store's own objects *)

(** X3. [getAnnotationFromCoords] and [getArticle] return objects of
    the store itself, not copies: what [getArticle] returns is among
    what [getAnnotationFromCoords] returns, that is among the stored
    objects, and a caller's assignment to a returned object shows in
    the store. *)
Theorem point_queries_share_store_objects (x y page : Z) (w : World) :
  heap_closed w →
  (∀ l, l ∈ getArticle x y page w → l ∈ getAnnotationFromCoords x y page w) ∧
  (∀ l a,
     l ∈ getAnnotationFromCoords x y page w →
     l ∈ annotations (service w) ∧
     a ∈ store_contents (run (OpCallerMutate l a) w)).
Proof.
  intros Hclosed. split.
  - unfold getArticle. by intros l [_ Hl]%list_elem_of_filter.
  - intros l a [_ Hl]%list_elem_of_filter. split; [done|].
    unfold store_contents. cbn [run objects service].
    apply list_elem_of_fmap. exists l. split; [|done].
    symmetry. apply deref_Some, mutate_lookup. by apply heap_closed_elem.
Qed.

Lemma point_queries_share_store_objects_witness :
  heap_closed server_session ∧
  getAnnotationFromCoords 70 70 0 server_session = [6; 7]%positive ∧
  server_content ∈ store_contents (run (OpCallerMutate 7%positive server_content)
                                       server_session).
Proof.
  assert (Hclosed : heap_closed server_session).
  { apply reachable_heap_closed, reachable_run_all, reachable_initial. }
  assert (Hq : getAnnotationFromCoords 70 70 0 server_session = [6; 7]%positive)
    by by vm_compute.
  split_and!; [done|done|].
  destruct (point_queries_share_store_objects 70 70 0 server_session Hclosed) as [_ Hshare].
  apply (Hshare 7%positive). rewrite Hq. apply elem_of_cons. right.
  apply elem_of_cons. by left.
Defined.

(** ** Saving and loading again *)

(** X15. When the regions are flushed and the payload of
    [saveMetadata] is loaded again, the store holds the regions it held
    before that are not tagged ["article"], in the same order, and the
    page registry is as before; no article is left, so [getArticle]
    finds nothing at any point and [remove] never cascades. *)
Theorem save_flush_load_drops_articles (id : string) (w : World) :
  heap_closed w →
  store_contents (save_flush_load id w)
  = filter (λ a, Annotation.tag a ≠ Some (AnnotationType_value Article)) (store_contents w) ∧
  pagesProperties (service (save_flush_load id w)) = pagesProperties (service w) ∧
  registry_contents (save_flush_load id w) = registry_contents w ∧
  (∀ x y page,
     getArticle x y page (save_flush_load id w) = [] ∧
     remove_find_article x y page (save_flush_load id w) = None).
Proof.
  intros Hclosed. unfold save_flush_load.
  set (w0 := with_service flushAnnotations w).
  assert (Hclosed0 : heap_closed w0) by constructor.
  assert (Hpayload : Forall (λ l, l ∈ dom (objects w0)) (Request.payload (saveMetadata id w))).
  { apply Forall_forall. intros l [_ Hl]%list_elem_of_filter.
    by apply (heap_closed_elem w). }
  destruct (setServerAnnotations_spec _ w0 Hclosed0 Hpayload) as (Hstore & _).
  assert (Hvalues : store_contents (setServerAnnotations (Request.payload (saveMetadata id w)) w0)
    = filter (λ a, Annotation.tag a ≠ Some (AnnotationType_value Article)) (store_contents w)).
  { rewrite Hstore. unfold store_contents at 1. cbn [w0 with_service flushAnnotations service
      annotations set_annotations fmap list_fmap app objects].
    unfold saveMetadata, store_contents. cbn [Request.payload]. by apply fmap_filter_comm. }
  assert (Hnone : ∀ l, l ∈ annotations (service (setServerAnnotations
                                (Request.payload (saveMetadata id w)) w0)) →
      Annotation.tag (deref (objects (setServerAnnotations
                                (Request.payload (saveMetadata id w)) w0)) l)
      ≠ Some (AnnotationType_value Article)).
  { intros l Hl.
    assert (Hin : deref (objects (setServerAnnotations
                     (Request.payload (saveMetadata id w)) w0)) l
                  ∈ store_contents (setServerAnnotations
                     (Request.payload (saveMetadata id w)) w0)).
    { unfold store_contents. by apply list_elem_of_fmap_2. }
    rewrite Hvalues in Hin. by apply list_elem_of_filter in Hin as [Htag _]. }
  split_and!; [done| | |].
  - by rewrite setServerAnnotations_pagesProperties.
  - apply registry_contents_frame.
    + by rewrite setServerAnnotations_pageObjects.
    + by rewrite setServerAnnotations_pagesProperties.
  - intros x y page. split.
    + apply elem_of_nil_inv. intros l. unfold getArticle, getAnnotationFromCoords.
      intros [Htag [_ Hl]%list_elem_of_filter]%list_elem_of_filter.
      by apply (Hnone l Hl).
    + apply remove_find_article_None. intros l Hl _. by apply Hnone.
Qed.

Lemma save_flush_load_drops_articles_witness :
  heap_closed server_session ∧
  store_contents (save_flush_load "doc" server_session)
  = [server_title; server_author; server_content; server_other].
Proof.
  assert (Hclosed : heap_closed server_session).
  { apply reachable_heap_closed, reachable_run_all, reachable_initial. }
  split; [done|].
  destruct (save_flush_load_drops_articles "doc" server_session Hclosed) as [-> _].
  by vm_compute.
Defined.

(** * Properties of the canvas gestures *)

Lemma mutate_deref l a h : l ∈ dom h → deref (mutate l a h) l = a.
Proof. intros Hl. by apply deref_Some, mutate_lookup. Qed.

(** Assigning to the canvas's own object keeps the canvas ready and
    the store as it is. *)
Lemma canvas_mutate_spec c a w :
  canvas_ready c w →
  canvas_ready c {| objects := mutate (Canvas.currentAnnotation c) a (objects w);
                    pageObjects := pageObjects w;
                    service := service w |} ∧
  store_contents {| objects := mutate (Canvas.currentAnnotation c) a (objects w);
                    pageObjects := pageObjects w;
                    service := service w |} = store_contents w ∧
  deref (mutate (Canvas.currentAnnotation c) a (objects w)) (Canvas.currentAnnotation c) = a.
Proof.
  intros (Hclosed & Hcur & Hown). split_and!.
  - unfold canvas_ready, heap_closed. cbn [objects service].
    rewrite mutate_dom. by split_and!.
  - unfold store_contents. cbn [objects service].
    apply fmap_deref_agree, Forall_forall. intros k Hk.
    apply mutate_lookup_ne. by intros ->.
  - by apply mutate_deref.
Qed.

Lemma onMouseDown_spec x y c w :
  canvas_ready c w →
  fst (onMouseDown x y c w)
  = Canvas.mk (Canvas.pageIndex c) true (Canvas.currentAnnotation c) ∧
  canvas_ready c (snd (onMouseDown x y c w)) ∧
  service (snd (onMouseDown x y c w)) = service w ∧
  store_contents (snd (onMouseDown x y c w)) = store_contents w ∧
  deref (objects (snd (onMouseDown x y c w))) (Canvas.currentAnnotation c)
  = Annotation.mk x y
      (Annotation.xEnd (deref (objects w) (Canvas.currentAnnotation c)))
      (Annotation.yEnd (deref (objects w) (Canvas.currentAnnotation c)))
      (Annotation.page (deref (objects w) (Canvas.currentAnnotation c)))
      (Annotation.pairKey (deref (objects w) (Canvas.currentAnnotation c)))
      (AnnotationType_value <$> annotationType (service w)).
Proof.
  intros Hready. unfold onMouseDown. cbn [fst snd].
  match goal with |- context [mutate _ ?a _] =>
    destruct (canvas_mutate_spec c a w Hready) as (Hready' & Hstore & Hcur) end.
  by split_and!.
Qed.

Lemma onMouseMove_spec x y c w :
  canvas_ready c w → Canvas.draw c = true →
  fst (onMouseMove x y c w) = c ∧
  canvas_ready c (snd (onMouseMove x y c w)) ∧
  service (snd (onMouseMove x y c w)) = service w ∧
  store_contents (snd (onMouseMove x y c w)) = store_contents w ∧
  deref (objects (snd (onMouseMove x y c w))) (Canvas.currentAnnotation c)
  = Annotation.mk
      (Annotation.x (deref (objects w) (Canvas.currentAnnotation c)))
      (Annotation.y (deref (objects w) (Canvas.currentAnnotation c)))
      (x - Annotation.x (deref (objects w) (Canvas.currentAnnotation c)))
      (y - Annotation.y (deref (objects w) (Canvas.currentAnnotation c)))
      (Annotation.page (deref (objects w) (Canvas.currentAnnotation c)))
      (Annotation.pairKey (deref (objects w) (Canvas.currentAnnotation c)))
      (Annotation.tag (deref (objects w) (Canvas.currentAnnotation c))).
Proof.
  intros Hready Hdraw. unfold onMouseMove. rewrite Hdraw. cbn [fst snd].
  match goal with |- context [mutate _ ?a _] =>
    destruct (canvas_mutate_spec c a w Hready) as (Hready' & Hstore & Hcur) end.
  by split_and!.
Qed.

Lemma onMouseUp_spec c w :
  canvas_ready c w → Canvas.draw c = true →
  let stored :=
    Annotation.mk
      (Annotation.x (deref (objects w) (Canvas.currentAnnotation c)))
      (Annotation.y (deref (objects w) (Canvas.currentAnnotation c)))
      (Annotation.xEnd (deref (objects w) (Canvas.currentAnnotation c)))
      (Annotation.yEnd (deref (objects w) (Canvas.currentAnnotation c)))
      (Canvas.pageIndex c)
      (Annotation.pairKey (deref (objects w) (Canvas.currentAnnotation c)))
      (Annotation.tag (deref (objects w) (Canvas.currentAnnotation c))) in
  fst (onMouseUp c w)
  = Canvas.mk (Canvas.pageIndex c) false (Canvas.currentAnnotation c) ∧
  canvas_ready c (snd (onMouseUp c w)) ∧
  store_contents (snd (onMouseUp c w)) = store_contents w ++ [stored] ∧
  deref (objects (snd (onMouseUp c w))) (Canvas.currentAnnotation c) = stored ∧
  ∃ l, annotations (service (snd (onMouseUp c w))) = annotations (service w) ++ [l] ∧
       deref (objects (snd (onMouseUp c w))) l = stored.
Proof.
  intros Hready Hdraw stored. unfold onMouseUp. rewrite Hdraw. cbn [fst snd].
  fold stored.
  destruct (canvas_mutate_spec c stored w Hready) as (Hready' & Hstore & Hcur).
  set (w1 := {| objects := mutate (Canvas.currentAnnotation c) stored (objects w);
                pageObjects := pageObjects w;
                service := service w |}) in *.
  destruct Hready' as (Hclosed1 & Hcur1 & Hown1).
  assert (Hobj : objects w1 !! Canvas.currentAnnotation c = Some stored).
  { rewrite (deref_lookup _ _ Hcur1). f_equal. exact Hcur. }
  destruct (setAnnotation_spec _ stored w1 Hclosed1 Hobj) as (Hstore2 & Hkeep & l & Hann & Hl).
  pose proof (setAnnotation_heap_closed (Canvas.currentAnnotation c) w1 Hclosed1) as Hclosed2.
  assert (Hcur2 : objects (setAnnotation (Canvas.currentAnnotation c) w1)
                  !! Canvas.currentAnnotation c = Some stored).
  { by rewrite (Hkeep _ Hcur1). }
  split_and!.
  - done.
  - split_and!; [done|by apply elem_of_dom_2 in Hcur2|].
    rewrite Hann. intros [Hin|Hin]%elem_of_app; [done|].
    apply list_elem_of_singleton in Hin. apply Hl. by rewrite <- Hin.
  - by rewrite Hstore2, Hstore.
  - by apply deref_Some.
  - exists l. split; [done|].
    assert (Hlast : last (store_contents (setAnnotation (Canvas.currentAnnotation c) w1))
                    = Some stored) by (rewrite Hstore2; apply last_snoc).
    unfold store_contents in Hlast. rewrite Hann, fmap_app in Hlast.
    change (deref ?h <$> [?k]) with [deref h k] in Hlast.
    rewrite last_snoc in Hlast. by injection Hlast.
Qed.

Lemma canvas_ready_same_object c c' w :
  Canvas.currentAnnotation c' = Canvas.currentAnnotation c →
  canvas_ready c w → canvas_ready c' w.
Proof. unfold canvas_ready. by intros ->. Qed.

Lemma onMouseUp_annotationType c w :
  annotationType (service (snd (onMouseUp c w))) = annotationType (service w).
Proof.
  unfold onMouseUp. cbn [snd]. destruct (Canvas.draw c); [|done].
  by destruct (setAnnotation_service (Canvas.currentAnnotation c)
                 {| objects := mutate (Canvas.currentAnnotation c)
                      (Annotation.mk
                         (Annotation.x (deref (objects w) (Canvas.currentAnnotation c)))
                         (Annotation.y (deref (objects w) (Canvas.currentAnnotation c)))
                         (Annotation.xEnd (deref (objects w) (Canvas.currentAnnotation c)))
                         (Annotation.yEnd (deref (objects w) (Canvas.currentAnnotation c)))
                         (Canvas.pageIndex c)
                         (Annotation.pairKey (deref (objects w) (Canvas.currentAnnotation c)))
                         (Annotation.tag (deref (objects w) (Canvas.currentAnnotation c))))
                      (objects w);
                    pageObjects := pageObjects w;
                    service := service w |}) as [l ->].
Qed.

(** What one drag leaves behind. *)
Lemma drag_spec x0 y0 x1 y1 c w :
  canvas_ready c w →
  let stored :=
    Annotation.mk x0 y0 (x1 - x0) (y1 - y0) (Canvas.pageIndex c)
      (Annotation.pairKey (deref (objects w) (Canvas.currentAnnotation c)))
      (AnnotationType_value <$> annotationType (service w)) in
  fst (drag x0 y0 x1 y1 c w)
  = Canvas.mk (Canvas.pageIndex c) false (Canvas.currentAnnotation c) ∧
  canvas_ready c (snd (drag x0 y0 x1 y1 c w)) ∧
  annotationType (service (snd (drag x0 y0 x1 y1 c w))) = annotationType (service w) ∧
  store_contents (snd (drag x0 y0 x1 y1 c w)) = store_contents w ++ [stored] ∧
  deref (objects (snd (drag x0 y0 x1 y1 c w))) (Canvas.currentAnnotation c) = stored ∧
  ∃ l, annotations (service (snd (drag x0 y0 x1 y1 c w)))
       = annotations (service w) ++ [l] ∧
       deref (objects (snd (drag x0 y0 x1 y1 c w))) l = stored.
Proof.
  intros Hready stored. unfold drag.
  pose proof (onMouseDown_spec x0 y0 c w Hready) as Hdown.
  destruct (onMouseDown x0 y0 c w) as [c1 w1]. cbn [fst snd] in Hdown.
  destruct Hdown as (-> & Hready1 & Hsvc1 & Hstore1 & Hcur1).
  set (c1 := Canvas.mk (Canvas.pageIndex c) true (Canvas.currentAnnotation c)) in *.
  pose proof (onMouseMove_spec x1 y1 c1 w1
                (canvas_ready_same_object c c1 w1 eq_refl Hready1) eq_refl) as Hmove.
  destruct (onMouseMove x1 y1 c1 w1) as [c2 w2]. cbn [fst snd] in Hmove.
  destruct Hmove as (-> & Hready2 & Hsvc2 & Hstore2 & Hcur2).
  pose proof (onMouseUp_spec c1 w2 Hready2 eq_refl) as Hup.
  subst c1.
  pose proof (onMouseUp_annotationType
                (Canvas.mk (Canvas.pageIndex c) true (Canvas.currentAnnotation c)) w2) as Hty.
  cbn [Canvas.pageIndex Canvas.currentAnnotation Canvas.draw] in *.
  rewrite Hcur2, Hcur1 in Hup. cbn [Annotation.x Annotation.y Annotation.xEnd
    Annotation.yEnd Annotation.page Annotation.pairKey Annotation.tag] in Hup.
  destruct Hup as (Hc & Hready3 & Hstore3 & Hcur3 & l & Hann & Hl).
  rewrite Hsvc2, Hsvc1 in Hann. rewrite Hstore2, Hstore1 in Hstore3.
  rewrite Hsvc2, Hsvc1 in Hty.
  split_and!; try done. by exists l.
Qed.

(** What one click leaves behind. *)
Lemma click_spec x y c w :
  canvas_ready c w →
  store_contents (snd (click x y c w))
  = store_contents w ++
    [Annotation.mk x y
       (Annotation.xEnd (deref (objects w) (Canvas.currentAnnotation c)))
       (Annotation.yEnd (deref (objects w) (Canvas.currentAnnotation c)))
       (Canvas.pageIndex c)
       (Annotation.pairKey (deref (objects w) (Canvas.currentAnnotation c)))
       (AnnotationType_value <$> annotationType (service w))].
Proof.
  intros Hready. unfold click.
  pose proof (onMouseDown_spec x y c w Hready) as Hdown.
  destruct (onMouseDown x y c w) as [c1 w1]. cbn [fst snd] in Hdown.
  destruct Hdown as (-> & Hready1 & Hsvc1 & Hstore1 & Hcur1).
  pose proof (onMouseUp_spec
                (Canvas.mk (Canvas.pageIndex c) true (Canvas.currentAnnotation c)) w1
                (canvas_ready_same_object c _ w1 eq_refl Hready1) eq_refl) as Hup.
  cbn [Canvas.pageIndex Canvas.currentAnnotation Canvas.draw] in *.
  rewrite Hcur1 in Hup. cbn [Annotation.x Annotation.y Annotation.xEnd
    Annotation.yEnd Annotation.page Annotation.pairKey Annotation.tag] in Hup.
  destruct Hup as (_ & _ & Hstore2 & _).
  by rewrite Hstore2, Hstore1.
Qed.

(** X9. A click, the pointer not moved between button-down and
    button-up, stores a region too: its origin is the place of the
    click and its extent is the one the canvas's object was left with.
    After a drag that is the extent of the drag: the click repeats the
    dragged rectangle at the new origin. *)
Theorem click_repeats_previous_extent (x0 y0 x1 y1 x2 y2 : Z) (c : Canvas.t) (w : World) :
  canvas_ready c w →
  let after_drag := drag x0 y0 x1 y1 c w in
  let key := Annotation.pairKey (deref (objects w) (Canvas.currentAnnotation c)) in
  let tag := AnnotationType_value <$> getAnnotationType (service w) in
  store_contents (snd (click x2 y2 (fst after_drag) (snd after_drag)))
  = store_contents w ++
    [Annotation.mk x0 y0 (x1 - x0) (y1 - y0) (Canvas.pageIndex c) key tag;
     Annotation.mk x2 y2 (x1 - x0) (y1 - y0) (Canvas.pageIndex c) key tag].
Proof.
  intros Hready after_drag key tag. subst after_drag.
  destruct (drag_spec x0 y0 x1 y1 c w Hready) as (Hc & Hready' & Hty & Hstore & Hcur & _).
  rewrite Hc.
  rewrite click_spec by exact Hready'.
  cbn [Canvas.pageIndex Canvas.currentAnnotation].
  rewrite Hcur, Hstore, Hty, <- app_assoc. done.
Qed.

(** X10. The region a drag from [(x0, y0)] to [(x1, y1)] stores lies
    under a point exactly when the point is on the canvas's page and
    between the two ends of the drag on both axes, ends included; so
    after a drag to the left or upwards it lies under no point. *)
Theorem dragged_region_hit_set (x0 y0 x1 y1 : Z) (c : Canvas.t) (w : World) :
  canvas_ready c w →
  ∃ l,
    annotations (service (snd (drag x0 y0 x1 y1 c w))) = annotations (service w) ++ [l] ∧
    ∀ x y page,
      l ∈ getAnnotationFromCoords x y page (snd (drag x0 y0 x1 y1 c w)) ↔
      x0 ≤ x ≤ x1 ∧ y0 ≤ y ≤ y1 ∧ page = Canvas.pageIndex c.
Proof.
  intros Hready.
  destruct (drag_spec x0 y0 x1 y1 c w Hready) as (_ & _ & _ & _ & _ & l & Hann & Hl).
  exists l. split; [done|]. intros x y page.
  unfold getAnnotationFromCoords. rewrite list_elem_of_filter, Hl, hasAnnotation_true.
  cbn [Annotation.x Annotation.y Annotation.xEnd Annotation.yEnd Annotation.page].
  rewrite Hann, elem_of_app, list_elem_of_singleton. split; [lia|].
  intros Hin. split; [lia|by right].
Qed.

Lemma page0_canvas_ready : canvas_ready page0_canvas page0_world.
Proof.
  split_and!.
  - constructor.
  - apply (bool_decide_unpack _). by vm_compute.
  - apply not_elem_of_nil.
Qed.

Lemma click_repeats_previous_extent_witness :
  canvas_ready page0_canvas page0_world ∧
  store_contents
    (snd (click 300 300 (fst (drag 50 50 250 150 page0_canvas page0_world))
                        (snd (drag 50 50 250 150 page0_canvas page0_world))))
  = [Annotation.mk 50 50 200 100 0 undefined (Some "article"%string);
     Annotation.mk 300 300 200 100 0 undefined (Some "article"%string)].
Proof.
  split; [exact page0_canvas_ready|].
  by rewrite (click_repeats_previous_extent 50 50 250 150 300 300 _ _ page0_canvas_ready).
Defined.

Lemma dragged_region_hit_set_witness :
  canvas_ready page0_canvas page0_world ∧
  ∃ l, annotations (service (snd (drag 50 50 250 150 page0_canvas page0_world))) = [l] ∧
       l ∈ getAnnotationFromCoords 250 150 0 (snd (drag 50 50 250 150 page0_canvas page0_world)) ∧
       (l ∉ getAnnotationFromCoords 251 150 0 (snd (drag 50 50 250 150 page0_canvas page0_world))).
Proof.
  split; [exact page0_canvas_ready|].
  destruct (dragged_region_hit_set 50 50 250 150 _ _ page0_canvas_ready) as (l & Hann & Hhit).
  exists l. split_and!; [exact Hann| |].
  - apply Hhit. cbn. lia.
  - rewrite Hhit. lia.
Defined.

(** ** Regions drawn on a canvas have no pairing key *)

Lemma deref_no_pairKey w l :
  no_pairKey w → Annotation.pairKey (deref (objects w) l) = undefined.
Proof.
  intros Hno. unfold deref. rewrite lookup_total_alt.
  destruct (objects w !! l) as [a|] eqn:Hl; [|done].
  by apply (Hno l a).
Qed.

Lemma no_pairKey_mutate l a w :
  Annotation.pairKey a = undefined → no_pairKey w →
  no_pairKey {| objects := mutate l a (objects w); pageObjects := pageObjects w;
                service := service w |}.
Proof.
  intros Ha Hno. unfold no_pairKey, mutate. cbn [objects].
  destruct (objects w !! l); [|done]. by apply map_Forall_insert_2.
Qed.

Lemma no_pairKey_objects w w' : objects w' = objects w → no_pairKey w → no_pairKey w'.
Proof. unfold no_pairKey. by intros ->. Qed.

Lemma no_pairKey_setAnnotation annotation w :
  no_pairKey w → no_pairKey (setAnnotation annotation w).
Proof.
  intros Hno. unfold setAnnotation, Object_assign_new, alloc.
  apply map_Forall_insert_2; [|done]. by apply (deref_no_pairKey w).
Qed.

Lemma no_pairKey_setServerAnnotations annotations w :
  no_pairKey w → no_pairKey (setServerAnnotations annotations w).
Proof.
  unfold setServerAnnotations. revert w.
  induction annotations as [|a ls IH]; intros w Hno; [done|].
  simpl. by apply IH, no_pairKey_setAnnotation.
Qed.

Lemma no_pairKey_map_Object_assign_new ls : ∀ h,
  map_Forall (λ _ a, Annotation.pairKey a = undefined) h →
  map_Forall (λ _ a, Annotation.pairKey a = undefined) (snd (map_Object_assign_new h ls)).
Proof.
  induction ls as [|l ls IH]; intros h Hno; [done|].
  cbn [map_Object_assign_new]. unfold Object_assign_new, alloc.
  specialize (IH (<[fresh (dom h) := h !!! l]> h)).
  destruct (map_Object_assign_new _ ls) as [ls' h2]. cbn [snd] in *.
  apply IH, map_Forall_insert_2; [|done].
  by apply (deref_no_pairKey {| objects := h; pageObjects := ∅; service := initial |}).
Qed.

Lemma no_pairKey_getAnnotations page w :
  no_pairKey w → no_pairKey (snd (getAnnotations page w)).
Proof.
  intros Hno. unfold getAnnotations.
  pose proof (no_pairKey_map_Object_assign_new
                (filter (λ annotation, Annotation.page (deref (objects w) annotation) = page)
                        (annotations (service w)))
                (objects w) Hno) as Hcopy.
  by destruct (map_Object_assign_new _ _) as [copies h].
Qed.

Lemma no_pairKey_run op w :
  service_call op = true → no_pairKey w → no_pairKey (run op w).
Proof.
  intros Hcall Hno.
  destruct op as [|anns|ann|pg|ty|pp| |x y page| |m| |doc|p|a|l a|q|l q];
    cbn [run]; try done.
  - by apply no_pairKey_setServerAnnotations.
  - by apply no_pairKey_setAnnotation.
  - by apply no_pairKey_getAnnotations.
  - eapply no_pairKey_objects; [|exact Hno]. apply remove_frame.
Qed.

Lemma no_pairKey_handle e c w : no_pairKey w → no_pairKey (snd (handle e c w)).
Proof.
  intros Hno. pose proof (deref_no_pairKey w (Canvas.currentAnnotation c) Hno) as Hcur.
  destruct e as [x y|x y|]; cbn [handle].
  - unfold onMouseDown. cbn [snd]. by apply no_pairKey_mutate.
  - unfold onMouseMove. destruct (Canvas.draw c); [|done].
    cbn [snd]. by apply no_pairKey_mutate.
  - unfold onMouseUp. cbn [snd]. destruct (Canvas.draw c); [|done].
    by apply no_pairKey_setAnnotation, no_pairKey_mutate.
Qed.

(** X11. The canvas never gives a region a [pairKey]. In a world where
    no object has one, as at the start, none has one after a canvas is
    constructed, after any pointer event on any canvas, and after any
    call of the service; and in such a world [remove] at a point with
    an article under it empties the store, every page included. *)
Theorem canvas_regions_have_no_pairKey :
  no_pairKey initial_world ∧
  ∀ w, no_pairKey w →
    (∀ pageIndex,
       no_pairKey {| objects := snd (resetAnnotation pageIndex (objects w));
                     pageObjects := pageObjects w;
                     service := service w |}) ∧
    (∀ e c, no_pairKey (snd (handle e c w))) ∧
    (∀ op, service_call op = true → no_pairKey (run op w)) ∧
    (∀ x y page article,
       remove_find_article x y page w = Some article →
       annotations (service (remove x y page w)) = []).
Proof.
  split; [apply map_Forall_empty|].
  intros w Hno. split_and!.
  - intros pageIndex. unfold resetAnnotation, alloc. cbn [snd].
    by apply map_Forall_insert_2.
  - intros e c. by apply no_pairKey_handle.
  - intros op Hop. by apply no_pairKey_run.
  - intros x y page article Hfind. unfold remove. rewrite Hfind.
    rewrite removeArticle_annotations. apply elem_of_nil_inv.
    intros l [Hkey _]%list_elem_of_filter.
    by rewrite !(deref_no_pairKey w) in Hkey.
Qed.

Lemma canvas_regions_have_no_pairKey_witness :
  no_pairKey canvas_session ∧
  Annotation.page <$> store_contents canvas_session = [0; 5] ∧
  annotations (service (remove 100 100 0 canvas_session)) = [].
Proof.
  assert (Hno : no_pairKey canvas_session).
  { apply (bool_decide_unpack _). by vm_compute. }
  split_and!; [done|by vm_compute|].
  destruct canvas_regions_have_no_pairKey as [_ Hinv].
  destruct (Hinv canvas_session Hno) as (_ & _ & _ & Hempty).
  apply (Hempty 100 100 0 3%positive). by vm_compute.
Defined.

(** ** Drawing *)







(** ** Observers of the work mode *)

Lemma bs_next_in_sync (v : WorkMode) b :
  Forall (λ received, observed received = Some v) (bs_observers (bs_next v b)).
Proof.
  unfold bs_next. cbn [bs_observers]. apply Forall_fmap, Forall_forall.
  intros received _. apply last_snoc.
Qed.

Lemma setPagesProperties_workMode pageProperties h this :
  workMode (setPagesProperties pageProperties h this) = workMode this.
Proof. unfold setPagesProperties. by destruct (list_find _ _). Qed.

Lemma run_observers_in_sync op w :
  observers_in_sync (service w) → observers_in_sync (service (run op w)).
Proof.
  intros Hsync. unfold observers_in_sync in *.
  destruct op as [|anns|ann|pg|ty|pp| |x y page| |m| |doc|p|a|l a|q|l q];
    cbn [run]; try done.
  - apply bs_next_in_sync.
  - by destruct (setServerAnnotations_frame anns w) as [l ->].
  - by rewrite getAnnotations_service.
  - apply bs_next_in_sync.
  - unfold with_service. cbn [service]. by rewrite setPagesProperties_workMode.
  - by destruct (remove_frame x y page w) as [_ [l ->]].
  - apply bs_next_in_sync.
  - cbn. apply Forall_app. split; [done|]. by repeat constructor.
Qed.

(** X6. In every world a session can reach, each observer of the work
    mode has the current mode as the last value it received, whenever
    it subscribed and whatever was called since: no operation changes
    the mode without telling every observer. *)
Theorem reachable_observers_in_sync (w : World) :
  reachable w → observers_in_sync (service w).
Proof.
  induction 1 as [|op w _ IH]; [constructor|by apply run_observers_in_sync].
Qed.

Lemma reachable_observers_in_sync_witness :
  reachable (run_all [OpSubscribeWorkMode; OpSetWorkMode Delete; OpSubscribeWorkMode;
                      OpSetAnnotationType Title] server_session) ∧
  bs_observers (workMode (service
    (run_all [OpSubscribeWorkMode; OpSetWorkMode Delete; OpSubscribeWorkMode;
              OpSetAnnotationType Title] server_session)))
  = [[Create; Delete; Create]; [Delete; Create]] ∧
  observers_in_sync (service
    (run_all [OpSubscribeWorkMode; OpSetWorkMode Delete; OpSubscribeWorkMode;
              OpSetAnnotationType Title] server_session)).
Proof.
  assert (Hreach : reachable (run_all [OpSubscribeWorkMode; OpSetWorkMode Delete;
                      OpSubscribeWorkMode; OpSetAnnotationType Title] server_session)).
  { apply reachable_run_all, reachable_run_all, reachable_initial. }
  split_and!; [done|by vm_compute|].
  by apply reachable_observers_in_sync.
Defined.

(** ** A whole gesture *)

Lemma Annotation_eta (a : Annotation) :
  Annotation.mk (Annotation.x a) (Annotation.y a) (Annotation.xEnd a) (Annotation.yEnd a)
    (Annotation.page a) (Annotation.pairKey a) (Annotation.tag a) = a.
Proof. by destruct a. Qed.

(** Pointer moves while the button is down: only the extent of the
    canvas's object follows the pointer. *)
Lemma moves_spec (moves : list (Z * Z)) c w :
  canvas_ready c w → Canvas.draw c = true →
  let cur := deref (objects w) (Canvas.currentAnnotation c) in
  let after := foldl (λ cw m, onMouseMove (fst m) (snd m) (fst cw) (snd cw)) (c, w) moves in
  fst after = c ∧
  canvas_ready c (snd after) ∧
  service (snd after) = service w ∧
  store_contents (snd after) = store_contents w ∧
  deref (objects (snd after)) (Canvas.currentAnnotation c)
  = Annotation.mk (Annotation.x cur) (Annotation.y cur)
      (from_option (λ m, fst m - Annotation.x cur) (Annotation.xEnd cur) (last moves))
      (from_option (λ m, snd m - Annotation.y cur) (Annotation.yEnd cur) (last moves))
      (Annotation.page cur) (Annotation.pairKey cur) (Annotation.tag cur).
Proof.
  intros Hready Hdraw cur.
  induction moves as [|m moves IH] using rev_ind; intros after; subst after.
  { cbn [foldl fst snd last from_option]. split_and!; try done.
    symmetry. apply Annotation_eta. }
  rewrite foldl_snoc, last_snoc. cbn [from_option].
  destruct IH as (Hc & Hready' & Hsvc & Hstore & Hcur).
  destruct (foldl _ (c, w) moves) as [c' w']. cbn [fst snd] in *. subst c'.
  destruct (onMouseMove_spec (fst m) (snd m) c w' Hready' Hdraw)
    as (Hc2 & Hready2 & Hsvc2 & Hstore2 & Hcur2).
  rewrite Hcur in Hcur2. cbn [Annotation.x Annotation.y Annotation.xEnd
    Annotation.yEnd Annotation.page Annotation.pairKey Annotation.tag] in Hcur2.
  split_and!; try done; congruence.
Qed.

(** X8. A gesture on a canvas, button down at [(x0, y0)], any pointer
    moves, button up, appends one region to the store and changes no
    other. Its origin is the place of the button-down; its extent is
    the signed difference from there to the last pointer position, or,
    when the pointer did not move, the extent the canvas's object was
    left with; its page is the canvas's page, its tag the annotation
    type selected at button-down, its [pairKey] that of the canvas's
    object. *)
Theorem gesture_stores_region (x0 y0 : Z) (moves : list (Z * Z)) (c : Canvas.t) (w : World) :
  canvas_ready c w →
  let cur := deref (objects w) (Canvas.currentAnnotation c) in
  store_contents (snd (gesture x0 y0 moves c w))
  = store_contents w ++
    [Annotation.mk x0 y0
       (from_option (λ m, fst m - x0) (Annotation.xEnd cur) (last moves))
       (from_option (λ m, snd m - y0) (Annotation.yEnd cur) (last moves))
       (Canvas.pageIndex c) (Annotation.pairKey cur)
       (AnnotationType_value <$> getAnnotationType (service w))] ∧
  Canvas.draw (fst (gesture x0 y0 moves c w)) = false.
Proof.
  intros Hready cur. unfold gesture.
  pose proof (onMouseDown_spec x0 y0 c w Hready) as Hdown.
  destruct (onMouseDown x0 y0 c w) as [c1 w1]. cbn [fst snd] in Hdown.
  destruct Hdown as (-> & Hready1 & Hsvc1 & Hstore1 & Hcur1).
  set (c1 := Canvas.mk (Canvas.pageIndex c) true (Canvas.currentAnnotation c)) in *.
  pose proof (moves_spec moves c1 w1
                (canvas_ready_same_object c c1 w1 eq_refl Hready1) eq_refl) as Hmoves.
  cbv zeta in Hmoves.
  destruct (foldl _ (c1, w1) moves) as [c2 w2]. cbn [fst snd] in Hmoves.
  destruct Hmoves as (-> & Hready2 & Hsvc2 & Hstore2 & Hcur2).
  pose proof (onMouseUp_spec c1 w2 Hready2 eq_refl) as Hup.
  subst c1. cbn [Canvas.pageIndex Canvas.currentAnnotation Canvas.draw] in *.
  rewrite Hcur2, Hcur1 in Hup. cbn [Annotation.x Annotation.y Annotation.xEnd
    Annotation.yEnd Annotation.page Annotation.pairKey Annotation.tag] in Hup.
  destruct Hup as (Hc & _ & Hstore3 & _).
  rewrite Hc, Hstore3, Hstore2, Hstore1. done.
Qed.

Lemma gesture_stores_region_witness :
  canvas_ready page0_canvas page0_world ∧
  store_contents
    (snd (gesture 50 50 [(60, 70); (300, 20); (250, 150)] page0_canvas page0_world))
  = [Annotation.mk 50 50 200 100 0 undefined (Some "article"%string)].
Proof.
  split; [exact page0_canvas_ready|].
  by destruct (gesture_stores_region 50 50 [(60, 70); (300, 20); (250, 150)] _ _
                 page0_canvas_ready) as [-> _].
Defined.
